(** * Personal AI chatbot: session, memory and command orchestration

    A shallow embedding of the authentication helpers of [main.py], the
    per-profile memory of [memory_storage.py], the directive branch of
    [app.py] and the keyword registry of [voice_commands.py], followed by
    the properties established about them.

    Conventions of the embedding.
    - A Python [str] is a [string]: a sequence of 8-bit characters read as
      the code points 0..255 (Latin-1).  [isspace] and [lower] are Python's
      [str.isspace] and [str.lower] on that range.
    - A [dict] is a [gmap]; the one dict whose iteration order matters (the
      voice command registry) is an association list in insertion order.
    - Fixed user-facing texts (they contain emoji) are constructors of an
      inductive type rather than character strings; texts built from
      run-time values carry those values as arguments.
    - Code that raises returns [Raise e] in the [result] type.
    - The file system, the widgets drawn and the calls made to the language
      model are explicit components of the state that is passed along. *)

From Equations Require Import Equations.
From stdpp Require Import gmap strings list fin_maps.
From Stdlib Require Import Ascii String ZArith Lia.

Open Scope string_scope.

(** ** Results of code that may raise *)

Inductive result (E A : Type) : Type :=
| Ok (a : A)
| Raise (e : E).
Arguments Ok {E A} a.
Arguments Raise {E A} e.

Definition bind {E A B} (r : result E A) (k : A -> result E B) : result E B :=
  match r with
  | Ok a => k a
  | Raise e => Raise e
  end.

Definition inspect {A} (a : A) : {b : A | a = b} := exist _ a eq_refl.

(** ** Python string operations used by the program *)

Module PyStr.

(** [str.isspace] of one character, on code points below 256. *)
Definition isspace (c : ascii) : bool :=
  let n := N_of_ascii c in
  ((9 <=? n) && (n <=? 13) || (28 <=? n) && (n <=? 32)
   || (n =? 133) || (n =? 160))%N.

(** [str.lower] of one character, on code points below 256: the letters
    A-Z and the accented capitals 0xC0-0xDE other than the multiplication
    sign 0xD7 move up by 32. *)
Definition lower_char (c : ascii) : ascii :=
  let n := N_of_ascii c in
  if ((65 <=? n) && (n <=? 90)
      || (192 <=? n) && (n <=? 222) && negb (n =? 215))%N
  then ascii_of_N (n + 32) else c.

Fixpoint lower (s : string) : string :=
  match s with
  | EmptyString => EmptyString
  | String c s' => String (lower_char c) (lower s')
  end.

Fixpoint lstrip (s : string) : string :=
  match s with
  | EmptyString => EmptyString
  | String c s' => if isspace c then lstrip s' else s
  end.

Fixpoint rstrip (s : string) : string :=
  match s with
  | EmptyString => EmptyString
  | String c s' =>
      match rstrip s' with
      | EmptyString => if isspace c then EmptyString else String c EmptyString
      | r => String c r
      end
  end.

(** [s.strip()] *)
Definition strip (s : string) : string := rstrip (lstrip s).

(** [strip_prefix pre s] is the rest of [s] after its prefix [pre], when
    [s] starts with [pre]. *)
Fixpoint strip_prefix (pre s : string) : option string :=
  match pre, s with
  | EmptyString, _ => Some s
  | String a pre', String b s' =>
      if Ascii.eqb a b then strip_prefix pre' s' else None
  | String _ _, EmptyString => None
  end.

(** [s.startswith(pre)] *)
Definition startswith (s pre : string) : bool :=
  match strip_prefix pre s with
  | Some _ => true
  | None => false
  end.

(** [sub in s]: [sub] occurs in [s] at some position. *)
Fixpoint contains (sub s : string) : bool :=
  startswith s sub ||
  match s with
  | EmptyString => false
  | String _ s' => contains sub s'
  end.

(** [s.count(c)] for a one-character [c]. *)
Fixpoint count (d : ascii) (s : string) : nat :=
  match s with
  | EmptyString => 0
  | String c s' => (if Ascii.eqb c d then 1 else 0) + count d s'
  end.

(** [s.split(d)] for a one-character separator [d]: empty fields are
    kept, so the result has one field more than [s] has separators. *)
Fixpoint split_on (d : ascii) (s : string) : list string :=
  match s with
  | EmptyString => [EmptyString]
  | String c s' =>
      if Ascii.eqb c d then EmptyString :: split_on d s'
      else match split_on d s' with
           | w :: ws => String c w :: ws
           | [] => [String c EmptyString]
           end
  end.

(** [s.split()]: the maximal runs of characters that are not white
    space. *)
Fixpoint split (s : string) : list string :=
  match s with
  | EmptyString => []
  | String c s' =>
      if isspace c then split s'
      else match s' with
           | EmptyString => [String c EmptyString]
           | String c' _ =>
               if isspace c' then String c EmptyString :: split s'
               else match split s' with
                    | w :: ws => String c w :: ws
                    | [] => [String c EmptyString]
                    end
           end
  end.

(** The last character of a text, if it has one. *)
Fixpoint last_char (s : string) : option ascii :=
  match s with
  | EmptyString => None
  | String c EmptyString => Some c
  | String _ s' => last_char s'
  end.

(** A text ends clean when it is empty or its last character is not
    white space; this is what [strip] leaves. *)
Definition ends_clean (t : string) : Prop :=
  match last_char t with
  | Some z => isspace z = false
  | None => True
  end.

(** [s.replace(old, "")]: every occurrence of [old] is removed, scanning
    from the left and resuming after each occurrence removed.  With an
    empty [old] and an empty replacement Python returns [s]. *)
Equations? remove_all (old s : string) : string by wf (String.length s) lt :=
  remove_all old EmptyString := EmptyString;
  remove_all old (String c s') with inspect (strip_prefix old (String c s')) := {
    | exist _ (Some rest) H with old := {
       | EmptyString := String c s'
       | String _ _ := remove_all old rest };
    | exist _ None _ := String c (remove_all old s') }.
Proof.
  - (* the rest after a non-empty prefix is shorter *)
    assert (Hlen : forall pre s rest, strip_prefix pre s = Some rest ->
              String.length s = String.length pre + String.length rest).
    { clear. intros pre. induction pre as [|a pre IH]; intros [|b s] rest E;
        simpl in E; try (inversion E; subst; reflexivity).
      destruct (Ascii.eqb a b); [|congruence]. simpl. now rewrite (IH _ _ E). }
    apply Hlen in H. simpl in *. lia.
  - simpl. lia.
Qed.

End PyStr.

(** ** memory_storage.py *)

Module MemoryStorage.

(** What the path "memories.json" holds.  [json.load] of what
    [json.dump] wrote gives the mapping back, so a file written by the
    store is represented by the mapping itself; [Malformed] is content
    that [json.load] rejects. *)
Inductive file : Type :=
| Absent
| Json (d : gmap string (gmap string string))
| Malformed (raw : string).

Inductive load_error : Type :=
| JSONDecodeError.

Record MemoryStore : Type := {
  profile_id : string;
  data : gmap string (gmap string string)
}.

Definition _load (f : file) : result load_error (gmap string (gmap string string)) :=
  match f with
  | Absent => Ok ∅
  | Json d => Ok d
  | Malformed _ => Raise JSONDecodeError
  end.

(** [MemoryStore(profile_id)] *)
Definition __init__ (pid : string) (f : file) : result load_error MemoryStore :=
  bind (_load f) (fun d => Ok {| profile_id := pid; data := d |}).

(** [save] rewrites the whole file from [self.data]. *)
Definition save (st : MemoryStore) : file := Json (data st).

Definition set (st : MemoryStore) (key value : string) : MemoryStore * file :=
  let pid := profile_id st in
  let d1 := match data st !! pid with
            | None => <[pid := ∅]> (data st)
            | Some _ => data st
            end in
  (* [d1] binds [pid] here, so the default is never taken *)
  let d2 := <[pid := <[key := value]> (default ∅ (d1 !! pid))]> d1 in
  let st' := {| profile_id := pid; data := d2 |} in
  (st', save st').

Definition get_all (st : MemoryStore) : gmap string string :=
  default ∅ (data st !! profile_id st).

Definition clear (st : MemoryStore) (f : file) : MemoryStore * file :=
  match data st !! profile_id st with
  | Some _ =>
      let st' := {| profile_id := profile_id st;
                    data := <[profile_id st := ∅]> (data st) |} in
      (st', save st')
  | None => (st, f)
  end.

(** The public operations, for stating properties over any history of
    calls made through one store object. *)
Inductive op : Type :=
| OpSet (key value : string)
| OpClear.

Definition step (o : op) (sf : MemoryStore * file) : MemoryStore * file :=
  match o with
  | OpSet k v => set (fst sf) k v
  | OpClear => clear (fst sf) (snd sf)
  end.

Definition run (ops : list op) (sf : MemoryStore * file) : MemoryStore * file :=
  fold_left (fun acc o => step o acc) ops sf.

(** The store and its file agree when loading the file gives the
    mapping the store holds. *)
Definition in_sync (st : MemoryStore) (f : file) : Prop :=
  _load f = Ok (data st).

End MemoryStorage.

(** ** main.py: token issuance and token discovery *)

Module Auth.

Definition ACCESS_TOKEN_EXPIRE_MINUTES : Z := 30.

(** A [timedelta] is a number of microseconds and a [datetime] the
    number of microseconds since the epoch, both in [Z]. *)
Definition minutes (m : Z) : Z := (m * 60 * 1000000)%Z.

Inductive claim : Type :=
| ClaimStr (s : string)
| ClaimTime (t : Z).

(** Truth value of an [Optional[timedelta]]: [None] and the zero
    duration are false. *)
Definition delta_truthy (expires_delta : option Z) : bool :=
  match expires_delta with
  | Some d => negb (d =? 0)%Z
  | None => false
  end.

(** The payload handed to [jwt.encode]: a copy of [data] with the claim
    "exp" set.  [utcnow] is the value of [datetime.utcnow()]. *)
Definition to_encode (data : gmap string claim) (expires_delta : option Z)
    (utcnow : Z) : gmap string claim :=
  let expire :=
    if delta_truthy expires_delta
    then (utcnow + default 0 expires_delta)%Z
    else (utcnow + minutes 15)%Z in
  <["exp" := ClaimTime expire]> data.

Definition create_access_token (jwt_encode : gmap string claim -> string)
    (data : gmap string claim) (expires_delta : option Z) (utcnow : Z) : string :=
  jwt_encode (to_encode data expires_delta utcnow).

(** What the login and signup routes do:
    [create_access_token(data, expires_delta=timedelta(minutes=ACCESS_TOKEN_EXPIRE_MINUTES))]. *)
Definition route_token (jwt_encode : gmap string claim -> string)
    (data : gmap string claim) (utcnow : Z) : string :=
  create_access_token jwt_encode data
    (Some (minutes ACCESS_TOKEN_EXPIRE_MINUTES)) utcnow.

Inductive http_error : Type :=
| NotAuthenticated       (* 401, [credentials_exception] *)
| InvalidScheme.         (* 400, "Invalid authentication scheme" *)

(** Truth value of an [Optional[str]]: [None] and the empty string are
    false. *)
Definition truthy (o : option string) : bool :=
  match o with
  | Some (String _ _) => true
  | _ => false
  end.

(** Lines 85-99 of [get_current_user].  [authorization] is
    [request.headers["authorization"]] when that header is present,
    [access_token] the cookie of that name and [token] what
    [oauth2_scheme] supplied. *)
Definition candidate_token (authorization access_token token : option string)
    : result http_error string :=
  let token :=
    if negb (truthy token) && truthy access_token
    then Some (PyStr.remove_all "Bearer " (default "" access_token))
    else token in
  bind
    (if negb (truthy token)
     then match authorization with
          | Some h =>
              match PyStr.split (PyStr.strip h) with
              | [scheme; tok] =>
                  if String.eqb (PyStr.lower scheme) "bearer"
                  then Ok (Some tok)
                  else Raise InvalidScheme
              | _ => Raise NotAuthenticated   (* ValueError on unpacking *)
              end
          | None => Ok token
          end
     else Ok token)
    (fun token =>
       match token with
       | Some (String c t) => Ok (String c t)
       | _ => Raise NotAuthenticated
       end).

(** [import database as db] binds [db] in main.py to the module
    database, not to the [MongoDB] object that the module keeps under its
    own name [db].  The attributes of the module are the names that
    database.py binds at its top level; asking it for any other attribute
    raises [AttributeError]. *)
Definition database_names : list string :=
  [ "MongoClient"; "DuplicateKeyError"; "CryptContext"; "datetime";
    "timedelta"; "os"; "load_dotenv"; "pwd_context"; "MongoDB"; "db" ].

Definition db_has (attribute : string) : bool :=
  existsb (String.eqb attribute) database_names.

Section GetCurrentUser.
Context {user : Type}.
(** [jwt.decode]: the payload, or [None] for a [JWTError]; the payload is
    reduced to its string claims. *)
Variable jwt_decode : string -> option (gmap string string).
(** What [db.get_user_by_email] would look up, if [db] had it. *)
Variable get_user_by_email : string -> option user.

Definition get_current_user (authorization access_token token : option string)
    : result http_error user :=
  bind (candidate_token authorization access_token token) (fun token =>
    match jwt_decode token with
    | None => Raise NotAuthenticated
    | Some payload =>
        match payload !! "sub" with
        | Some (String c e) =>
            if db_has "get_user_by_email"
            then match get_user_by_email (String c e) with
                 | Some u => Ok u
                 | None => Raise NotAuthenticated
                 end
            else Raise NotAuthenticated  (* AttributeError, [except Exception] *)
        | _ => Raise NotAuthenticated
        end
    end).
End GetCurrentUser.

(** The token discovery as the specification words it, for comparison
    with [candidate_token]: the transport-level credential if there is
    one; else the cookie with a leading "Bearer " taken off; else the
    header parsed as [Bearer <token>]; and "unauthenticated" when none of
    the three gives a non-empty string. *)
Definition drop_leading (pre s : string) : string :=
  default s (PyStr.strip_prefix pre s).

Definition header_bearer (authorization : option string) : option string :=
  match authorization with
  | Some h =>
      match PyStr.split (PyStr.strip h) with
      | [scheme; tok] =>
          if String.eqb (PyStr.lower scheme) "bearer" then Some tok else None
      | _ => None
      end
  | None => None
  end.

Definition candidate_as_specified (authorization access_token token : option string)
    : result http_error string :=
  if truthy token then Ok (default "" token)
  else if truthy (drop_leading "Bearer " <$> access_token)
  then Ok (drop_leading "Bearer " (default "" access_token))
  else match header_bearer authorization with
       | Some tok => Ok tok
       | None => Raise NotAuthenticated
       end.

(** "Bearer " occurs in a cookie value at its start or not at all. *)
Definition bearer_only_leading (cookie : string) : bool :=
  negb (PyStr.contains "Bearer " (drop_leading "Bearer " cookie)).

(** The expiry as the specification words it: the issuance time plus the
    override, or plus [ACCESS_TOKEN_EXPIRE_MINUTES] without one. *)
Definition expiry_as_specified (expires_delta : option Z) (utcnow : Z) : Z :=
  (utcnow + default (minutes ACCESS_TOKEN_EXPIRE_MINUTES) expires_delta)%Z.

End Auth.

(** ** app.py: one chat turn *)

Module Chat.
Import MemoryStorage.

Inductive role : Type := User | Assistant.

(** Texts shown or recorded by the script. *)
Inductive text : Type :=
| Plain (s : string)               (* a run-time string as it is *)
| LoadModelFirst                   (* "Please load the model first ..." *)
| Remembered (key value : string)  (* f"Remembered: {key} = {value}" *)
| UseFormat                        (* "Use format: /remember key=value" *)
| MemoryCleared                    (* "Memory cleared!" *)
| HereIsWhatIRemember              (* "Here's what I remember:" *)
| NoMemoriesYet                    (* "I don't have any memories stored yet." *)
| ModelNotReady                    (* "Model not ready. ..." *)
| TryAgain                         (* "I encountered an issue generating a response. ..." *)
| ErrorOccurred (e : string).      (* f"An error occurred: {str(e)}" *)

(** Streamlit calls, in the order made. *)
Inductive widget : Type :=
| st_warning (t : text)
| st_success (t : text)
| st_error (t : text)
| st_info (t : text)
| st_json (d : gmap string string)
| st_markdown (who : role) (t : text).

(** The two values interpolated into the system prompt of a model call:
    the persona and [st.session_state.memory.get_all()]. *)
Record context : Type := {
  persona : string;
  memory_context : gmap string string
}.

(** Outcome of [granite.chat]. *)
Inductive reply : Type :=
| Returns (response : string)
| Throws (e : string).

(** Session state after its initialisation (lines 72-76), the backing
    file, the widgets drawn and the model calls made so far. *)
Record state : Type := {
  messages : list (role * text);
  memory : MemoryStore;
  memories_json : file;
  drawn : list widget;
  model_calls : list (context * string)
}.

Definition draw (w : widget) (s : state) : state :=
  {| messages := messages s; memory := memory s;
     memories_json := memories_json s;
     drawn := drawn s ++ [w]; model_calls := model_calls s |}.

Definition append_message (r : role) (t : text) (s : state) : state :=
  {| messages := messages s ++ [(r, t)]; memory := memory s;
     memories_json := memories_json s;
     drawn := drawn s; model_calls := model_calls s |}.

Definition with_memory (mf : MemoryStore * file) (s : state) : state :=
  {| messages := messages s; memory := fst mf;
     memories_json := snd mf;
     drawn := drawn s; model_calls := model_calls s |}.

Definition record_call (c : context) (prompt : string) (s : state) : state :=
  {| messages := messages s; memory := memory s;
     memories_json := memories_json s;
     drawn := drawn s; model_calls := model_calls s ++ [(c, prompt)] |}.

(** [any(keyword in response.lower() for keyword in ["error", "apologize", "sorry"])] *)
Definition flagged (response : string) : bool :=
  existsb (fun keyword => PyStr.contains keyword (PyStr.lower response))
          ["error"; "apologize"; "sorry"].

(** Lines 131-137: the prompt is recorded and echoed when the model is
    loaded, and a warning is shown when it is not. *)
Definition received (model_ready : bool) (prompt : string) (s : state) : state :=
  if negb model_ready then draw (st_warning LoadModelFirst) s
  else draw (st_markdown User (Plain prompt))
         (append_message User (Plain prompt) s).

Section Turn.
(** The language model, a black box. *)
Variable chat : context -> string -> reply.

(** Lines 158-195: the regular chat response. *)
Definition regular_response (model_ready : bool) (persona : string)
    (prompt : string) (s : state) : state :=
  if negb model_ready then draw (st_error ModelNotReady) s
  else
    let c := {| persona := persona; memory_context := get_all (memory s) |} in
    let s := record_call c prompt s in
    match chat c prompt with
    | Returns response =>
        if flagged response then draw (st_error TryAgain) s
        else append_message Assistant (Plain response)
               (draw (st_markdown Assistant (Plain response)) s)
    | Throws e =>
        append_message Assistant (ErrorOccurred e)
          (draw (st_error (ErrorOccurred e)) s)
    end.

(** Lines 130-195: the body run when [st.chat_input] returns [prompt]. *)
Definition handle_prompt (model_ready : bool) (persona : string)
    (prompt : string) (s : state) : state :=
  let s := received model_ready prompt s in
  if PyStr.startswith prompt "/remember " then
    match PyStr.split_on "=" (PyStr.remove_all "/remember " prompt) with
    | [k; v] =>
        draw (st_success (Remembered (PyStr.strip k) (PyStr.strip v)))
          (with_memory (set (memory s) (PyStr.strip k) (PyStr.strip v)) s)
    | _ => draw (st_error UseFormat) s
    end
  else if String.eqb (PyStr.lower (PyStr.strip prompt)) "/clear" then
    draw (st_success MemoryCleared)
      (with_memory (clear (memory s) (memories_json s)) s)
  else if String.eqb (PyStr.lower (PyStr.strip prompt)) "what do you remember?" then
    let memory_data := get_all (memory s) in
    if decide (memory_data = ∅) then draw (st_info NoMemoriesYet) s
    else draw (st_json memory_data) (draw (st_info HereIsWhatIRemember) s)
  else regular_response model_ready persona prompt s.
End Turn.

(** A prompt is a local directive when one of the three special-command
    tests of lines 140, 147 and 150 succeeds. *)
Definition is_directive (prompt : string) : bool :=
  PyStr.startswith prompt "/remember "
  || String.eqb (PyStr.lower (PyStr.strip prompt)) "/clear"
  || String.eqb (PyStr.lower (PyStr.strip prompt)) "what do you remember?".

(** The "/remember" argument as the specification words it: what is left
    of the prompt once its prefix is taken off. *)
Definition remainder (prompt : string) : string :=
  default prompt (PyStr.strip_prefix "/remember " prompt).

End Chat.

(** ** voice_commands.py *)

Module Voice.
Import MemoryStorage.

(** Responses returned by the handlers. *)
Inductive response : Type :=
| AvailableVoiceCommands             (* the help text *)
| ChatHistoryCleared                 (* "Chat history cleared!" *)
| RememberedInfo (info : string)     (* f"Remembered: {info}" *)
| PleaseSpecify                      (* "Please specify what to remember" *)
| StoredMemories (d : gmap string string) (* f"Stored memories: {memory_data}" *)
| NoMemoriesStored                   (* "No memories stored yet" *)
| MemoryNotAvailable                 (* "Memory system not available" *)
| NavigatedTo (label : string)       (* "Navigated to ..." *)
| UnknownDestination                 (* "Unknown navigation destination" *)
| UnknownInformation                 (* "Unknown information request" *)
| DataSaved
| DataExported
| BudgetingTips
| InvestmentBasics
| SavingsStrategies
| ExpenseManagement.

(** [st.session_state] as the handlers use it (each entry may be
    missing), with the backing file of the memory store. *)
Record state : Type := {
  messages : option (list (string * string));
  memory : option MemoryStore;
  current_page : option string;
  memories_json : file
}.

Definition handler : Type := string -> state -> response * state.

(** *** The three regular expressions

    Matchers take the text at the current position and a continuation
    for the rest of the pattern; [None] is a failed match. *)

(** [\s+]: greedy, giving characters back one at a time when the rest of
    the pattern fails. *)
Fixpoint ws_plus {A} (k : string -> option A) (s : string) : option A :=
  match s with
  | String c s' =>
      if PyStr.isspace c
      then match ws_plus k s' with
           | Some r => Some r
           | None => k s'
           end
      else None
  | EmptyString => None
  end.

Definition newline : ascii := ascii_of_N 10.

Fixpoint line_prefix (s : string) : string :=
  match s with
  | String c s' =>
      if Ascii.eqb c newline then EmptyString else String c (line_prefix s')
  | EmptyString => EmptyString
  end.

(** [(.+)] closing a pattern: the longest run of characters other than
    the newline, which must not be empty; the run is the group. *)
Definition dot_plus (s : string) : option string :=
  match line_prefix s with
  | EmptyString => None
  | g => Some g
  end.

Definition lit {A} (l : string) (k : string -> option A) (s : string) : option A :=
  match PyStr.strip_prefix l s with
  | Some rest => k rest
  | None => None
  end.

(** [re.search]: the match at the leftmost position that has one. *)
Fixpoint search {A} (m : string -> option A) (s : string) : option A :=
  match m s with
  | Some r => Some r
  | None =>
      match s with
      | String _ s' => search m s'
      | EmptyString => None
      end
  end.

(** [re.search(r'remember\s+(.+)', text)], giving [group(1)]. *)
Definition re_remember (text : string) : option string :=
  search (lit "remember" (ws_plus dot_plus)) text.

(** [re.search(r'go\s+to\s+(.+)', text)] *)
Definition re_go_to (text : string) : option string :=
  search (lit "go" (ws_plus (lit "to" (ws_plus dot_plus)))) text.

(** [re.search(r'show\s+(.+)', text)] *)
Definition re_show (text : string) : option string :=
  search (lit "show" (ws_plus dot_plus)) text.

(** *** Handlers *)

Definition show_help : handler := fun _ s => (AvailableVoiceCommands, s).

Definition clear_chat : handler := fun _ s =>
  (ChatHistoryCleared,
   match messages s with
   | Some _ => {| messages := Some []; memory := memory s;
                  current_page := current_page s;
                  memories_json := memories_json s |}
   | None => s
   end).

Definition remember_info : handler := fun text s =>
  match re_remember text with
  | Some g =>
      let info := PyStr.strip g in
      (RememberedInfo info,
       match memory s with
       | Some m =>
           let mf := set m "voice_note" info in
           {| messages := messages s; memory := Some (fst mf);
              current_page := current_page s; memories_json := snd mf |}
       | None => s
       end)
  | None => (PleaseSpecify, s)
  end.

Definition show_memory : handler := fun _ s =>
  match memory s with
  | Some m =>
      let memory_data := get_all m in
      if decide (memory_data = ∅) then (NoMemoriesStored, s)
      else (StoredMemories memory_data, s)
  | None => (MemoryNotAvailable, s)
  end.

(** The four navigation handlers: [page] is stored as the current page
    and [label] is named in the answer "Navigated to [label]". *)
Definition go_to (label page : string) : handler := fun _ s =>
  (NavigatedTo label,
   {| messages := messages s; memory := memory s;
      current_page := Some page; memories_json := memories_json s |}).

Definition go_to_dashboard : handler := go_to "Dashboard" "Dashboard".
Definition go_to_settings : handler := go_to "Settings" "Settings".
Definition go_to_analytics : handler := go_to "Analytics" "Financial Analytics".
Definition go_to_chat : handler := go_to "Chat Assistant" "Chat Assistant".

Definition navigate_to : handler := fun text s =>
  if PyStr.contains "dashboard" text then go_to_dashboard text s
  else if PyStr.contains "settings" text then go_to_settings text s
  else if PyStr.contains "analytics" text then go_to_analytics text s
  else if PyStr.contains "chat" text then go_to_chat text s
  else (UnknownDestination, s).

Definition show_info : handler := fun text s =>
  if PyStr.contains "help" text then show_help text s
  else if PyStr.contains "memory" text || PyStr.contains "remember" text
  then show_memory text s
  else (UnknownInformation, s).

Definition save_data : handler := fun _ s => (DataSaved, s).
Definition export_data : handler := fun _ s => (DataExported, s).
Definition budget_help : handler := fun _ s => (BudgetingTips, s).
Definition investment_help : handler := fun _ s => (InvestmentBasics, s).
Definition savings_help : handler := fun _ s => (SavingsStrategies, s).
Definition expenses_help : handler := fun _ s => (ExpenseManagement, s).

(** [self.commands], in the insertion order that iterating over a dict
    follows. *)
Definition commands : list (string * handler) :=
  [ ("help", show_help);
    ("clear", clear_chat);
    ("remember", remember_info);
    ("what do you remember", show_memory);
    ("dashboard", go_to_dashboard);
    ("settings", go_to_settings);
    ("analytics", go_to_analytics);
    ("chat", go_to_chat);
    ("save", save_data);
    ("export", export_data);
    ("budget", budget_help);
    ("invest", investment_help);
    ("savings", savings_help);
    ("expenses", expenses_help) ].

(** A keyword is plain when lowercasing leaves it as it is and it neither
    starts nor ends with white space: such a keyword occurs in the
    lowercased, trimmed utterance whenever it occurs in the utterance. *)
Definition plain_keyword (kw : string) : bool :=
  String.eqb (PyStr.lower kw) kw
  && match kw with
     | String c _ => negb (PyStr.isspace c)
     | EmptyString => false
     end
  && match PyStr.last_char kw with
     | Some z => negb (PyStr.isspace z)
     | None => false
     end.

(** The loop [for command, func in self.commands.items(): if command in
    text: return func(text)]: the first entry whose keyword occurs. *)
Fixpoint first_command (cs : list (string * handler)) (text : string)
    : option (string * handler) :=
  match cs with
  | [] => None
  | (command, func) :: cs' =>
      if PyStr.contains command text then Some (command, func)
      else first_command cs' text
  end.

Definition returned (r : response * state) : option response * state :=
  (Some (fst r), snd r).

Definition process_voice_command (text : string) (s : state)
    : option response * state :=
  let text := PyStr.strip (PyStr.lower text) in
  match first_command commands text with
  | Some (_, func) => returned (func text s)
  | None =>
      if bool_decide (is_Some (re_remember text)) then returned (remember_info text s)
      else if bool_decide (is_Some (re_go_to text)) then returned (navigate_to text s)
      else if bool_decide (is_Some (re_show text)) then returned (show_info text s)
      else (None, s)
  end.

(** What a response tells about the state: only "Remembered" comes with a
    change of the memory or its file, only "Chat history cleared" with a
    change of the transcript, only "Navigated to" with a change of the
    current page. *)
Definition changes_as_told (r : option response) (s s' : state) : Prop :=
  ((forall info, r <> Some (RememberedInfo info)) ->
   memory s' = memory s /\ memories_json s' = memories_json s)
  /\ (r <> Some ChatHistoryCleared -> messages s' = messages s)
  /\ ((forall page, r <> Some (NavigatedTo page)) ->
      current_page s' = current_page s).

End Voice.

(** ** model_provider.py *)

Module ModelProvider.

(** f"I apologize, but I encountered an error: {error_msg}. Please try
    again later." *)
Definition error_reply (error_msg : string) : string :=
  "I apologize, but I encountered an error: "
  +:+ error_msg +:+ ". Please try again later.".

(** [GraniteHF.chat].  Tokenizer and model are one black box [generate],
    which gives the decoded text or raises with a message.  The text is
    returned stripped; a failure is turned into the apology text, so the
    method itself raises nothing. *)
Definition chat (generate : string -> string -> result string string)
    (system_prompt user_message : string) : string :=
  match generate system_prompt user_message with
  | Ok response => PyStr.strip response
  | Raise error_msg => error_reply error_msg
  end.

(** [granite.chat] as app.py calls it: [render] is the f-string that
    builds the system prompt from the persona and the memory. *)
Definition granite (render : Chat.context -> string)
    (generate : string -> string -> result string string)
    (c : Chat.context) (prompt : string) : Chat.reply :=
  Chat.Returns (chat generate (render c) prompt).

End ModelProvider.

(** ** database.py *)

Module Database.

Inductive value : Type :=
| VStr (s : string)
| VTime (t : Z)
| VBool (b : bool)
| VId (oid : string).

#[global] Instance value_eq_dec : EqDecision value.
Proof. solve_decision. Defined.

(** The [users] collection: its documents in insertion order.  What is
    taken from pymongo: [find_one] gives the first document that matches
    the filter, or [None]; with the unique index on "email" that [connect]
    creates, [insert_one] raises [DuplicateKeyError] when a stored document
    has the same "email" (a missing field counts as null), and otherwise
    stores the document with a new "_id" unless it has one. *)
Definition has_email (email : string) (d : gmap string value) : bool :=
  bool_decide (d !! "email" = Some (VStr email)).

Definition find_one (users : list (gmap string value)) (email : string)
    : option (gmap string value) :=
  List.find (has_email email) users.

Inductive insert_error : Type :=
| DuplicateKeyError.

Definition with_id (oid : string) (d : gmap string value) : gmap string value :=
  match d !! "_id" with
  | Some _ => d
  | None => <["_id" := VId oid]> d
  end.

Definition insert_one (oid : string) (users : list (gmap string value))
    (d : gmap string value)
    : result insert_error (value * list (gmap string value)) :=
  if existsb (fun d' => bool_decide (d' !! "email" = d !! "email")) users
  then Raise DuplicateKeyError
  else Ok (default (VId oid) (with_id oid d !! "_id"),
           (users ++ [with_id oid d])%list).

(** What [create_user] returns: [str(result.inserted_id)], or a dict with
    the key "error". *)
Inductive created : Type :=
| InsertedId (id : value)
| Error_EmailExists          (* {"error": "Email already exists"} *)
| Error_Other.               (* {"error": str(e)} *)

Section Users.
(** [pwd_context.hash] and [pwd_context.verify] *)
Variable hash : string -> string.
Variable verify : string -> string -> bool.

(** The document that [create_user] hands to [insert_one]. *)
Definition prepared (user_data : gmap string value) (password : string)
    (created_at updated_at : Z) : gmap string value :=
  <["updated_at" := VTime updated_at]>
    (<["created_at" := VTime created_at]>
       (<["password" := VStr (hash password)]> user_data)).

(** [oid] is the identifier the driver generates; [created_at] and
    [updated_at] are the two readings of [datetime.utcnow()]. *)
Definition create_user (users : list (gmap string value))
    (user_data : gmap string value) (oid : string) (created_at updated_at : Z)
    : created * list (gmap string value) :=
  match user_data !! "password" with
  | Some (VStr password) =>
      let user_data :=
        <["updated_at" := VTime updated_at]>
          (<["created_at" := VTime created_at]>
             (<["password" := VStr (hash password)]> user_data)) in
      match insert_one oid users user_data with
      | Ok (id, users') => (InsertedId id, users')
      | Raise DuplicateKeyError => (Error_EmailExists, users)
      end
  | _ => (Error_Other, users)       (* KeyError or TypeError, caught *)
  end.

(** [authenticate_user]: [False] is [Ok None]; a document without a
    string "password" makes the subscript or [verify] raise. *)
Definition authenticate_user (users : list (gmap string value))
    (email password : string) : result unit (option (gmap string value)) :=
  match find_one users email with
  | None => Ok None
  | Some user =>
      match user !! "password" with
      | Some (VStr hashed) =>
          if verify password hashed then Ok (Some user) else Ok None
      | _ => Raise tt
      end
  end.

(** [get_user_by_email]: the projection [{"password": 0}] leaves the
    field out. *)
Definition get_user_by_email (users : list (gmap string value))
    (email : string) : option (gmap string value) :=
  delete "password" <$> find_one users email.

End Users.

(** No two stored documents have the same "email". *)
Definition emails_unique (users : list (gmap string value)) : Prop :=
  NoDup (map (fun d => d !! "email") users).

End Database.

(** ** main.py: the signup and login routes *)

Module Routes.
Import Database.

Record cookie : Type := {
  key : string;
  cookie_value : string;
  httponly : bool;
  max_age : Z;
  samesite : string;
  secure : bool;
  path : option string
}.

(** The "error" text of a JSON answer: a literal of the source, or the
    [str(e)] of an exception caught in [create_user]. *)
Inductive error_text : Type :=
| Literal (s : string)
| ExceptionText.

Inductive response : Type :=
| JSONResponse (status_code : Z) (error : error_text)
| HTTPError (status_code : Z) (detail : string)
| RedirectResponse (url : string) (status_code : Z) (cookies : list cookie)
| LoginSuccess (email : string) (fullname : value) (cookies : list cookie).

Section Handlers.
Variable hash : string -> string.
Variable verify : string -> string -> bool.
Variable jwt_encode : gmap string Auth.claim -> string.

(** [signup] (POST /signup).  [users] is the collection held by the
    [MongoDB] object; [https] is [request.url.scheme == "https"];
    [form_time], [form_time'], [created_at], [updated_at] and [issued_at]
    are the readings of [datetime.utcnow()] in the order taken. *)
Definition signup (users : list (gmap string value)) (https : bool)
    (fullname email password : string) (oid : string)
    (form_time form_time' created_at updated_at issued_at : Z)
    : response * list (gmap string value) :=
  if negb (Auth.db_has "users")
  then (* [db.users]: AttributeError, caught by [except Exception] *)
    (JSONResponse 500
       (Literal "An error occurred during signup. Please try again."), users)
  else
  match find_one users email with
  | Some _ => (JSONResponse 400 (Literal "Email already registered"), users)
  | None =>
      let user_data : gmap string value :=
        <["is_active" := VBool true]>
          (<["updated_at" := VTime form_time']>
             (<["created_at" := VTime form_time]>
                (<["password" := VStr password]>
                   (<["email" := VStr email]>
                      (<["fullname" := VStr fullname]> ∅))))) in
      match create_user hash users user_data oid created_at updated_at with
      | (Error_EmailExists, users') =>
          (JSONResponse 400 (Literal "Email already exists"), users')
      | (Error_Other, users') => (JSONResponse 400 ExceptionText, users')
      | (InsertedId _, users') =>
          let access_token :=
            Auth.create_access_token jwt_encode {[ "sub" := Auth.ClaimStr email ]}
              (Some (Auth.minutes Auth.ACCESS_TOKEN_EXPIRE_MINUTES)) issued_at in
          (RedirectResponse "/dashboard" 303
             [ {| key := "access_token";
                  cookie_value := "Bearer " +:+ access_token;
                  httponly := true;
                  max_age := Auth.ACCESS_TOKEN_EXPIRE_MINUTES * 60;
                  samesite := "lax";
                  secure := https;
                  path := None |} ],
           users')
      end
  end.

(** [login_for_access_token] (POST /login, the first of the two handlers
    registered for that path).  [is_production] is the test on the
    environment variable ENV.  An exception other than [HTTPException]
    becomes the 500 answer. *)
Definition login_for_access_token (users : list (gmap string value))
    (is_production : bool) (username password : string) (issued_at : Z)
    : response :=
  if negb (Auth.db_has "authenticate_user")
  then (* [db.authenticate_user]: AttributeError, caught by [except Exception] *)
    HTTPError 500 "An error occurred during login"
  else
  match authenticate_user verify users username password with
  | Raise _ => HTTPError 500 "An error occurred during login"
  | Ok None => HTTPError 401 "Incorrect email or password"
  | Ok (Some user) =>
      match user !! "email" with
      | Some (VStr email) =>
          let access_token :=
            Auth.create_access_token jwt_encode {[ "sub" := Auth.ClaimStr email ]}
              (Some (Auth.minutes Auth.ACCESS_TOKEN_EXPIRE_MINUTES)) issued_at in
          LoginSuccess email (default (VStr "") (user !! "fullname"))
            [ {| key := "access_token";
                 cookie_value := "Bearer " +:+ access_token;
                 httponly := true;
                 max_age := Auth.ACCESS_TOKEN_EXPIRE_MINUTES * 60;
                 samesite := "lax";
                 secure := is_production;
                 path := Some "/" |};
              {| key := "is_authenticated";
                 cookie_value := "true";
                 httponly := false;
                 max_age := Auth.ACCESS_TOKEN_EXPIRE_MINUTES * 60;
                 samesite := "lax";
                 secure := is_production;
                 path := Some "/" |} ]
      | _ => HTTPError 500 "An error occurred during login"
      end
  end.

End Handlers.
End Routes.

(** * Properties *)

(** ** Strings *)

Section StringFacts.
Import PyStr.

Lemma append_nil s : "" +:+ s = s.
Proof. reflexivity. Qed.

Lemma append_cons a s t : String a s +:+ t = String a (s +:+ t).
Proof. reflexivity. Qed.

Lemma strip_prefix_length pre s rest :
  strip_prefix pre s = Some rest ->
  String.length s = String.length pre + String.length rest.
Proof.
  revert s; induction pre as [|a pre IH]; intros [|b s]; simpl; intros H;
    try (inversion H; subst; reflexivity).
  destruct (Ascii.eqb a b); [|congruence]. rewrite (IH _ H). reflexivity.
Qed.

Lemma strip_prefix_app pre s rest :
  strip_prefix pre s = Some rest -> s = pre +:+ rest.
Proof.
  revert s; induction pre as [|a pre IH]; intros s H.
  - simpl in H. rewrite append_nil. destruct s; congruence.
  - destruct s as [|b s]; simpl in H; [congruence|].
    destruct (Ascii.eqb_spec a b) as [->|]; [|congruence].
    rewrite append_cons. f_equal. now apply IH.
Qed.

Lemma strip_prefix_of_app pre rest : strip_prefix pre (pre +:+ rest) = Some rest.
Proof.
  induction pre as [|a pre IH].
  - rewrite append_nil. now destruct rest.
  - rewrite append_cons. simpl. now rewrite Ascii.eqb_refl.
Qed.

Lemma count_app d s t : count d (s +:+ t) = count d s + count d t.
Proof.
  induction s as [|c s IH]; [reflexivity|].
  rewrite append_cons. simpl. rewrite IH. lia.
Qed.

(** The defining equations of [remove_all], by the outcome of the prefix
    test. *)
Lemma remove_all_skip old c s :
  strip_prefix old (String c s) = None ->
  remove_all old (String c s) = String c (remove_all old s).
Proof.
  intros E. simp remove_all.
  generalize (inspect (strip_prefix old (String c s))).
  intros [[rest|] E']; simp remove_all; [congruence|reflexivity].
Qed.

Lemma remove_all_hit a old c s rest :
  strip_prefix (String a old) (String c s) = Some rest ->
  remove_all (String a old) (String c s) = remove_all (String a old) rest.
Proof.
  intros E. simp remove_all.
  generalize (inspect (strip_prefix (String a old) (String c s))).
  intros [[rest'|] E']; simp remove_all; [|congruence].
  congruence.
Qed.

Lemma remove_all_empty_old s : remove_all "" s = s.
Proof.
  destruct s as [|c s]; [reflexivity|]. simp remove_all.
  generalize (inspect (strip_prefix "" (String c s))).
  intros [[rest|] E']; simp remove_all; [reflexivity|discriminate].
Qed.

(** Induction following the scan of [remove_all], for a non-empty [old]. *)
Lemma remove_all_scan a old (P : string -> string -> Prop) :
  P "" "" ->
  (forall c s, strip_prefix (String a old) (String c s) = None ->
               P s (remove_all (String a old) s) ->
               P (String c s) (String c (remove_all (String a old) s))) ->
  (forall c s rest, strip_prefix (String a old) (String c s) = Some rest ->
                    P rest (remove_all (String a old) rest) ->
                    P (String c s) (remove_all (String a old) rest)) ->
  forall s, P s (remove_all (String a old) s).
Proof.
  intros Hnil Hskip Hhit s.
  remember (String.length s) as n eqn:Hn. revert s Hn.
  induction n as [n IH] using lt_wf_ind. intros [|c s] Hn.
  - exact Hnil.
  - destruct (strip_prefix (String a old) (String c s)) as [rest|] eqn:E.
    + rewrite (remove_all_hit _ _ _ _ _ E). apply Hhit; [exact E|].
      apply (IH (String.length rest)); [|reflexivity].
      apply strip_prefix_length in E. simpl in *. lia.
    + rewrite (remove_all_skip _ _ _ E). apply Hskip; [exact E|].
      apply (IH (String.length s)); [|reflexivity]. simpl in Hn. lia.
Qed.

(** Removing occurrences of a text without [d] keeps the number of [d]s. *)
Lemma count_remove_all d a old s :
  count d (String a old) = 0 ->
  count d (remove_all (String a old) s) = count d s.
Proof.
  intros Hold.
  apply (remove_all_scan a old (fun s r => count d r = count d s)).
  - reflexivity.
  - intros c s' _ IH. simpl. now rewrite IH.
  - intros c s' rest E IH. rewrite IH.
    apply strip_prefix_app in E. rewrite E, count_app, Hold. reflexivity.
Qed.

Lemma split_on_length d s : List.length (split_on d s) = S (count d s).
Proof.
  induction s as [|c s IH]; simpl; [reflexivity|].
  destruct (Ascii.eqb c d); simpl; [now rewrite IH|].
  destruct (split_on d s); simpl in *; congruence.
Qed.

(** A text in which [old] does not occur is returned as it is. *)
Lemma remove_all_absent a old s :
  contains (String a old) s = false -> remove_all (String a old) s = s.
Proof.
  apply (remove_all_scan a old
           (fun s r => contains (String a old) s = false -> r = s)).
  - reflexivity.
  - intros c s' _ IH Hc. f_equal. apply IH.
    simpl in Hc. now apply orb_false_iff in Hc as [_ Hc].
  - intros c s' rest E _ Hc. exfalso.
    simpl in Hc. apply orb_false_iff in Hc as [Hc _].
    unfold startswith in Hc. rewrite E in Hc. discriminate.
Qed.

Lemma contains_unfold sub s :
  contains sub s
  = startswith s sub || match s with
                        | EmptyString => false
                        | String _ s' => contains sub s'
                        end.
Proof. now destruct s. Qed.

(** [sub in s] holds exactly when [s] is [sub] between two texts. *)
Lemma contains_iff sub s :
  contains sub s = true <-> exists a b, s = a +:+ sub +:+ b.
Proof.
  split.
  - induction s as [|c s IH]; rewrite contains_unfold; intros H;
      apply orb_true_iff in H as [H|H]; try discriminate.
    + unfold startswith in H.
      destruct (strip_prefix sub "") as [rest|] eqn:E; [|discriminate].
      exists "", rest. rewrite append_nil. now apply strip_prefix_app.
    + unfold startswith in H.
      destruct (strip_prefix sub (String c s)) as [rest|] eqn:E; [|discriminate].
      exists "", rest. rewrite append_nil. now apply strip_prefix_app.
    + destruct (IH H) as (a & b & ->). now exists (String c a), b.
  - intros (a & b & ->). induction a as [|c a IH]; rewrite contains_unfold.
    + rewrite append_nil. unfold startswith.
      now rewrite strip_prefix_of_app.
    + rewrite append_cons, IH. apply orb_true_r.
Qed.

Lemma lower_app s t : lower (s +:+ t) = lower s +:+ lower t.
Proof.
  induction s as [|c s IH]; [reflexivity|].
  rewrite append_cons. simpl. now rewrite IH.
Qed.

Lemma contains_lower sub s :
  contains sub s = true -> contains (lower sub) (lower s) = true.
Proof.
  rewrite !contains_iff. intros (a & b & ->).
  exists (lower a), (lower b). now rewrite !lower_app.
Qed.

(** Stripping at the left stops at the latest at a character that is not
    white space. *)
Lemma lstrip_keeps a c s :
  isspace c = false ->
  exists a', lstrip (a +:+ String c s) = a' +:+ String c s.
Proof.
  intros Hc. induction a as [|x a IH].
  - exists "". rewrite !append_nil. simpl. now rewrite Hc.
  - rewrite append_cons. simpl. destruct (isspace x); [exact IH|].
    now exists (String x a).
Qed.

Lemma rstrip_stop z s :
  isspace z = false -> rstrip (String z s) = String z (rstrip s).
Proof. intros Hz. simpl. destruct (rstrip s); [now rewrite Hz|reflexivity]. Qed.

Lemma rstrip_app a s : rstrip s <> "" -> rstrip (a +:+ s) = a +:+ rstrip s.
Proof.
  intros Hs. induction a as [|x a IH]; [reflexivity|].
  rewrite !append_cons. simpl. rewrite IH.
  destruct (a +:+ rstrip s) eqn:E; [|reflexivity].
  exfalso. apply Hs. destruct a; [exact E|discriminate E].
Qed.

Lemma last_char_split s z :
  last_char s = Some z -> exists s0, s = s0 +:+ String z "".
Proof.
  induction s as [|c s IH]; [discriminate|].
  destruct s as [|c' s'].
  - intros [= ->]. now exists "".
  - intros H. destruct (IH H) as (s0 & E). exists (String c s0).
    rewrite append_cons. now rewrite <- E.
Qed.

Lemma append_assoc (a b c : string) : (a +:+ b) +:+ c = a +:+ (b +:+ c).
Proof.
  induction a as [|x a IH]; [reflexivity|].
  rewrite !append_cons. now rewrite IH.
Qed.

Lemma rstrip_after s0 z b :
  isspace z = false ->
  rstrip ((s0 +:+ String z "") +:+ b) = (s0 +:+ String z "") +:+ rstrip b.
Proof.
  intros Hz. rewrite !append_assoc, !append_cons, !append_nil.
  rewrite rstrip_app by (rewrite (rstrip_stop _ _ Hz); discriminate).
  now rewrite (rstrip_stop _ _ Hz).
Qed.

(** A text that neither starts nor ends with white space survives
    [strip] wherever it occurs. *)
Lemma contains_strip sub s c z :
  (exists r, sub = String c r) -> isspace c = false ->
  last_char sub = Some z -> isspace z = false ->
  contains sub s = true -> contains sub (strip s) = true.
Proof.
  intros (r & Hr) Hc Hl Hz. rewrite !contains_iff. intros (a & b & ->).
  destruct (lstrip_keeps a c (r +:+ b) Hc) as (a' & E).
  assert (E' : lstrip (a +:+ sub +:+ b) = a' +:+ sub +:+ b).
  { rewrite Hr, append_cons. exact E. }
  destruct (last_char_split _ _ Hl) as (s0 & Hs0).
  assert (Hsb : rstrip (sub +:+ b) = sub +:+ rstrip b).
  { rewrite Hs0. now apply rstrip_after. }
  exists a', (rstrip b). unfold strip. rewrite E'.
  rewrite rstrip_app; [now rewrite Hsb|].
  rewrite Hsb, Hr, append_cons. discriminate.
Qed.

End StringFacts.

(** ** MemoryStore *)

Section MemoryStoreFacts.
Import MemoryStorage.

Lemma init_in_sync pid f st : __init__ pid f = Ok st -> in_sync st f.
Proof.
  unfold __init__, in_sync. destruct (_load f) as [d|e]; simpl; [|discriminate].
  intros [= <-]. reflexivity.
Qed.

Lemma init_profile pid f st : __init__ pid f = Ok st -> profile_id st = pid.
Proof.
  unfold __init__. destruct (_load f) as [d|e]; simpl; [|discriminate].
  intros [= <-]. reflexivity.
Qed.

Lemma set_data st k v :
  data (fst (set st k v))
  = <[profile_id st := <[k := v]> (get_all st)]> (data st).
Proof.
  unfold set, get_all; simpl.
  destruct (data st !! profile_id st) as [m|] eqn:E; simpl.
  - now rewrite E.
  - rewrite lookup_insert_eq. simpl. apply insert_insert_eq.
Qed.

Lemma set_profile st k v : profile_id (fst (set st k v)) = profile_id st.
Proof. reflexivity. Qed.

Lemma set_file st k v : snd (set st k v) = Json (data (fst (set st k v))).
Proof. reflexivity. Qed.

Lemma set_in_sync st k v : in_sync (fst (set st k v)) (snd (set st k v)).
Proof. reflexivity. Qed.

Lemma get_all_set st k v : get_all (fst (set st k v)) = <[k := v]> (get_all st).
Proof.
  unfold get_all at 1. rewrite set_profile, set_data, lookup_insert_eq.
  reflexivity.
Qed.

Lemma clear_profile st f : profile_id (fst (clear st f)) = profile_id st.
Proof. unfold clear. now destruct (data st !! profile_id st). Qed.

Lemma get_all_clear st f : get_all (fst (clear st f)) = ∅.
Proof.
  unfold clear, get_all.
  destruct (data st !! profile_id st) as [m|] eqn:E; simpl.
  - now rewrite lookup_insert_eq.
  - now rewrite E.
Qed.

Lemma clear_in_sync st f :
  in_sync st f -> in_sync (fst (clear st f)) (snd (clear st f)).
Proof.
  unfold clear. now destruct (data st !! profile_id st).
Qed.

Lemma step_in_sync o sf :
  in_sync (fst sf) (snd sf) -> in_sync (fst (step o sf)) (snd (step o sf)).
Proof.
  destruct o as [k v|]; [intros _; exact (set_in_sync (fst sf) k v) | apply clear_in_sync].
Qed.

Lemma step_profile o sf : profile_id (fst (step o sf)) = profile_id (fst sf).
Proof. destruct o; [reflexivity | apply clear_profile]. Qed.

Lemma run_invariant ops sf :
  in_sync (fst sf) (snd sf) ->
  in_sync (fst (run ops sf)) (snd (run ops sf))
  /\ profile_id (fst (run ops sf)) = profile_id (fst sf).
Proof.
  revert sf. induction ops as [|o ops IH]; intros sf Hs; [now split|].
  change (run (o :: ops) sf) with (run ops (step o sf)).
  destruct (IH (step o sf) (step_in_sync o sf Hs)) as [H1 H2].
  split; [exact H1|]. rewrite H2. apply step_profile.
Qed.

(** Restarting: a new store for the same profile over a file in sync
    with the old store reads the same profile mapping. *)
Lemma restart_get_all st f :
  in_sync st f ->
  exists st', __init__ (profile_id st) f = Ok st' /\ get_all st' = get_all st.
Proof.
  unfold in_sync, __init__. intros ->. simpl. eexists; split; reflexivity.
Qed.

(** C8. Loading when the backing file is absent gives the empty mapping
    and raises nothing (so a store can be created for any profile), and
    loading a file whose content is malformed raises: the decoding error
    reaches the caller of [_load] and of the constructor; no empty state
    stands in for it. *)
Theorem load_absent_empty_malformed_raises :
  _load Absent = Ok ∅
  /\ (forall pid, __init__ pid Absent = Ok {| profile_id := pid; data := ∅ |})
  /\ (forall raw, _load (Malformed raw) = Raise JSONDecodeError)
  /\ (forall pid raw, __init__ pid (Malformed raw) = Raise JSONDecodeError).
Proof. repeat split. Qed.

(** C5. Round trip.  Take a store created for profile [pid] over any
    file that loads, and any series of [set] and [clear] calls made
    through it.  Then after [set k v], [get_all] binds [k] to [v]; after
    [clear], [get_all] is empty; and in both cases a store created anew
    for [pid] from the file left behind (a restart) answers the same. *)
Theorem memory_round_trip pid f st0 ops k v :
  __init__ pid f = Ok st0 ->
  let st := fst (run ops (st0, f)) in
  let fl := snd (run ops (st0, f)) in
  (get_all (fst (set st k v)) !! k = Some v
   /\ exists st', __init__ pid (snd (set st k v)) = Ok st'
                  /\ get_all st' !! k = Some v)
  /\ (get_all (fst (clear st fl)) = ∅
      /\ exists st', __init__ pid (snd (clear st fl)) = Ok st'
                     /\ get_all st' = ∅).
Proof.
  intros Hinit st fl.
  destruct (run_invariant ops (st0, f) (init_in_sync _ _ _ Hinit)) as [Hs Hp].
  simpl in Hp. rewrite (init_profile _ _ _ Hinit) in Hp.
  fold st in Hs, Hp. fold fl in Hs.
  split; split.
  - rewrite get_all_set. apply lookup_insert_eq.
  - destruct (restart_get_all (fst (set st k v)) (snd (set st k v))
                (set_in_sync st k v)) as (st' & Hi & Hg).
    rewrite set_profile, Hp in Hi. exists st'. split; [exact Hi|].
    rewrite Hg, get_all_set. apply lookup_insert_eq.
  - apply get_all_clear.
  - destruct (restart_get_all (fst (clear st fl)) (snd (clear st fl))
                (clear_in_sync st fl Hs)) as (st' & Hi & Hg).
    rewrite clear_profile, Hp in Hi. exists st'. split; [exact Hi|].
    rewrite Hg. apply get_all_clear.
Qed.

Lemma memory_round_trip_witness :
  let st0 := {| profile_id := "alice"; data := ∅ |} in
  let st := fst (run [OpSet "a" "1"] (st0, Absent)) in
  get_all (fst (set st "budget" "3000")) !! "budget" = Some "3000".
Proof.
  exact (proj1 (proj1 (memory_round_trip "alice" Absent
                         {| profile_id := "alice"; data := ∅ |}
                         [OpSet "a" "1"] "budget" "3000" eq_refl))).
Defined.

(** C9. Frame property of [set].  After [set k v] on the store of profile
    [p], the mapping of any other profile [q] is what it was and so is
    the binding of any other key [k'] of profile [p]; the whole mapping
    differs from the old one in the entry [(p, k)] only, and it is the
    mapping written to the file. *)
Theorem set_frame st k v q k' :
  q ≠ profile_id st ->
  k' ≠ k ->
  data (fst (set st k v)) !! q = data st !! q
  /\ get_all (fst (set st k v)) !! k' = get_all st !! k'
  /\ data (fst (set st k v))
     = <[profile_id st := <[k := v]> (get_all st)]> (data st)
  /\ snd (set st k v) = Json (data (fst (set st k v))).
Proof.
  intros Hq Hk. repeat split.
  - rewrite set_data. now apply lookup_insert_ne.
  - rewrite get_all_set. now apply lookup_insert_ne.
  - apply set_data.
Qed.

Lemma set_frame_witness :
  let st := {| profile_id := "alice";
               data := {[ "bob" := {[ "goal" := "house" ]} ]} |} in
  data (fst (set st "budget" "3000")) !! "bob" = data st !! "bob".
Proof.
  refine (proj1 (set_frame _ "budget" "3000" "bob" "rent" _ _)); simpl;
    discriminate.
Defined.

End MemoryStoreFacts.

(** ** Tokens *)

Section TokenFacts.
Import Auth.

Lemma to_encode_exp data expires_delta utcnow :
  to_encode data expires_delta utcnow !! "exp"
  = Some (ClaimTime (if delta_truthy expires_delta
                     then utcnow + default 0 expires_delta
                     else utcnow + minutes 15)%Z).
Proof. unfold to_encode. apply lookup_insert_eq. Qed.

(** The other claims of the payload are the caller's. *)
Lemma to_encode_other data expires_delta utcnow name :
  name ≠ "exp" ->
  to_encode data expires_delta utcnow !! name = data !! name.
Proof. intros H. unfold to_encode. now apply lookup_insert_ne. Qed.

(** A zero [timedelta] is false in Python, so it is treated as no
    override at all. *)
Lemma zero_delta_is_no_override data utcnow :
  to_encode data (Some 0%Z) utcnow = to_encode data None utcnow.
Proof. reflexivity. Qed.

(** C2, as stated, fails: a token issued at time 0 without an override
    expires 15 minutes later, not [ACCESS_TOKEN_EXPIRE_MINUTES]. *)
Lemma default_expiry_is_not_30_minutes :
  to_encode ∅ None 0 !! "exp" = Some (ClaimTime (minutes 15))
  /\ to_encode ∅ None 0 !! "exp"
     ≠ Some (ClaimTime (expiry_as_specified None 0)).
Proof.
  rewrite to_encode_exp. split; [reflexivity|].
  vm_compute. intros H. discriminate H.
Qed.

(** C2, amended.  Without an [expires_delta] the encoded expiry is the
    issuance time plus 15 minutes; with a non-zero [expires_delta] it is
    the issuance time plus that delta; the routes of the application
    always pass [ACCESS_TOKEN_EXPIRE_MINUTES], so the tokens they issue
    expire 30 minutes after issuance. *)
Theorem issued_expiry jwt_encode data utcnow :
  create_access_token jwt_encode data None utcnow
  = jwt_encode (<["exp" := ClaimTime (utcnow + minutes 15)]> data)
  /\ (forall d : Z, d ≠ 0%Z ->
        create_access_token jwt_encode data (Some d) utcnow
        = jwt_encode (<["exp" := ClaimTime (utcnow + d)]> data))
  /\ route_token jwt_encode data utcnow
     = jwt_encode (<["exp" := ClaimTime (utcnow + minutes 30)]> data).
Proof.
  split; [reflexivity|]. split; [|reflexivity].
  intros d Hd. unfold create_access_token, to_encode, delta_truthy.
  destruct (Z.eqb_spec d 0); [contradiction|reflexivity].
Qed.

Lemma issued_expiry_witness :
  create_access_token (fun _ => "jwt") ∅ (Some (minutes 5)) 0 = "jwt".
Proof.
  apply (proj1 (proj2 (issued_expiry (fun _ => "jwt") ∅ 0))). discriminate.
Defined.

Lemma remove_all_only_leading cookie :
  bearer_only_leading cookie = true ->
  PyStr.remove_all "Bearer " cookie = drop_leading "Bearer " cookie.
Proof.
  unfold bearer_only_leading, drop_leading. intros H.
  apply negb_true_iff in H.
  destruct (PyStr.strip_prefix "Bearer " cookie) as [rest|] eqn:E.
  - change (PyStr.contains "Bearer " rest = false) in H.
    change (PyStr.remove_all "Bearer " cookie = rest).
    destruct cookie as [|c s]; [discriminate E|].
    rewrite (remove_all_hit _ _ _ _ _ E). now apply remove_all_absent.
  - change (PyStr.contains "Bearer " cookie = false) in H.
    change (PyStr.remove_all "Bearer " cookie = cookie).
    now apply remove_all_absent.
Qed.

(** The three stages of [candidate_token]. *)
Lemma candidate_token_transport authorization access_token token :
  truthy token = true ->
  candidate_token authorization access_token token = Ok (default "" token).
Proof. destruct token as [[|c t]|]; try discriminate. reflexivity. Qed.

Lemma candidate_token_cookie authorization cookie token c r :
  truthy token = false ->
  PyStr.remove_all "Bearer " cookie = String c r ->
  candidate_token authorization (Some cookie) token = Ok (String c r).
Proof.
  intros Ht Hr. unfold candidate_token. rewrite Ht.
  assert (Hc : truthy (Some cookie) = true).
  { destruct cookie; [discriminate Hr | reflexivity]. }
  rewrite Hc. change (default "" (Some cookie)) with cookie. rewrite Hr.
  reflexivity.
Qed.

Lemma candidate_token_header authorization access_token token :
  truthy token = false ->
  truthy access_token = false
  \/ (exists cookie, access_token = Some cookie
                     /\ PyStr.remove_all "Bearer " cookie = "") ->
  candidate_token authorization access_token token
  = match authorization with
    | Some h =>
        match PyStr.split (PyStr.strip h) with
        | [scheme; tok] =>
            if String.eqb (PyStr.lower scheme) "bearer"
            then match tok with
                 | String c t => Ok (String c t)
                 | EmptyString => Raise NotAuthenticated
                 end
            else Raise InvalidScheme
        | _ => Raise NotAuthenticated
        end
    | None => Raise NotAuthenticated
    end.
Proof.
  intros Ht Hc. unfold candidate_token. rewrite Ht.
  assert (Hfalsy : truthy (if negb false && truthy access_token
                           then Some (PyStr.remove_all "Bearer " (default "" access_token))
                           else token) = false).
  { destruct Hc as [Hc|(cookie & -> & Hr)].
    - now rewrite Hc.
    - change (default "" (Some cookie)) with cookie. rewrite Hr.
      now destruct (negb false && truthy (Some cookie)). }
  rewrite Hfalsy. change (negb false) with true. cbv iota.
  destruct authorization as [h|].
  - destruct (PyStr.split (PyStr.strip h)) as [|scheme [|tok [|x l]]];
      try reflexivity.
    now destruct (String.eqb (PyStr.lower scheme) "bearer").
  - change (negb false && truthy access_token) with (truthy access_token) in *.
    unfold bind.
    destruct (truthy access_token) eqn:E.
    + now destruct (PyStr.remove_all "Bearer " (default "" access_token)).
    + now destruct token as [[|]|].
Qed.

(** A field produced by [split] is never empty. *)
Lemma split_fields_nonempty s : Forall (fun w => w ≠ "") (PyStr.split s).
Proof.
  induction s as [|c s IH]; simpl; [constructor|].
  destruct (PyStr.isspace c); [exact IH|].
  destruct s as [|c' s']; [repeat constructor; discriminate|].
  destruct (PyStr.isspace c'); [constructor; [discriminate|exact IH]|].
  destruct (PyStr.split (String c' s')) as [|w ws];
    [repeat constructor; discriminate|].
  inversion IH; subst. constructor; [discriminate|assumption].
Qed.

(** C1, as stated, fails: with no transport-level credential and no
    cookie, the header "Basic abc" is answered with the 400 error
    "Invalid authentication scheme", not with "Not authenticated". *)
Lemma basic_scheme_is_a_bad_request :
  candidate_token (Some "Basic abc") None None = Raise InvalidScheme
  /\ candidate_token (Some "Basic abc") None None
     ≠ candidate_as_specified (Some "Basic abc") None None.
Proof. split; [reflexivity|]. vm_compute. discriminate. Qed.

(** C1, amended.  Token discovery has three sources in strict order.
    (1) A non-empty transport-level credential is the candidate,
    whatever the cookie and the header hold.  (2) Otherwise a cookie in
    which "Bearer " occurs at its start or not at all gives its value
    without that prefix, when this is not empty.  (3) Otherwise (no
    cookie, an empty one, or the bare prefix) the Authorization header
    decides: missing, the request is rejected as not authenticated;
    split at white space into exactly two fields, the second field is
    the candidate if the first is "bearer" in any letter case and the
    request is rejected as a bad request (invalid scheme) if it is not;
    any other number of fields is rejected as not authenticated. *)
Theorem candidate_token_precedence (authorization access_token token : option string) :
  (truthy token = true ->
   candidate_token authorization access_token token = Ok (default "" token))
  /\ (truthy token = false ->
      forall cookie, access_token = Some cookie ->
      bearer_only_leading cookie = true ->
      drop_leading "Bearer " cookie ≠ "" ->
      candidate_token authorization access_token token
      = Ok (drop_leading "Bearer " cookie))
  /\ (truthy token = false ->
      truthy access_token = false \/ access_token = Some "Bearer " ->
      (authorization = None ->
       candidate_token authorization access_token token = Raise NotAuthenticated)
      /\ (forall h scheme tok,
            authorization = Some h ->
            PyStr.split (PyStr.strip h) = [scheme; tok] ->
            candidate_token authorization access_token token
            = if String.eqb (PyStr.lower scheme) "bearer"
              then Ok tok else Raise InvalidScheme)
      /\ (forall h,
            authorization = Some h ->
            List.length (PyStr.split (PyStr.strip h)) ≠ 2 ->
            candidate_token authorization access_token token
            = Raise NotAuthenticated)).
Proof.
  split; [apply candidate_token_transport|]. split.
  - intros Ht cookie -> Hlead Hne.
    destruct (drop_leading "Bearer " cookie) as [|c r] eqn:E; [contradiction|].
    apply candidate_token_cookie; [exact Ht|].
    now rewrite (remove_all_only_leading _ Hlead).
  - intros Ht Hc.
    assert (Hh := candidate_token_header authorization access_token token Ht).
    rewrite Hh; [|destruct Hc as [Hc| ->]; [now left|right; now eexists]].
    split; [now intros ->|]. split.
    + intros h scheme tok -> Hs. rewrite Hs.
      destruct (String.eqb (PyStr.lower scheme) "bearer"); [|reflexivity].
      pose proof (split_fields_nonempty (PyStr.strip h)) as Hne.
      rewrite Hs in Hne. inversion Hne as [|? ? _ Hne']; subst.
      inversion Hne' as [|? ? Htok _]; subst.
      now destruct tok.
    + intros h -> Hlen.
      destruct (PyStr.split (PyStr.strip h)) as [|scheme [|tok [|x l]]];
        try reflexivity.
      now contradiction Hlen.
Qed.

Lemma candidate_token_precedence_witness :
  candidate_token (Some "Basic abc") (Some "Bearer from-cookie") (Some "direct")
  = Ok "direct".
Proof.
  exact (proj1 (candidate_token_precedence (Some "Basic abc")
                  (Some "Bearer from-cookie") (Some "direct")) eq_refl).
Defined.

End TokenFacts.

(** ** Voice commands *)

Section VoiceFacts.
Import Voice.

(** [first_command] returns the entry at the least position whose
    keyword occurs in the text. *)
Lemma first_command_least cs text command func :
  first_command cs text = Some (command, func) ->
  exists i, cs !! i = Some (command, func)
            /\ PyStr.contains command text = true
            /\ forall j c f, j < i -> cs !! j = Some (c, f) ->
                             PyStr.contains c text = false.
Proof.
  induction cs as [|[c0 f0] cs IH]; simpl; [discriminate|].
  destruct (PyStr.contains c0 text) eqn:E.
  - intros [= <- <-]. exists 0. repeat split; [exact E|]. intros; lia.
  - intros H. destruct (IH H) as (i & Hi & Hc & Hmin).
    exists (S i). repeat split; [exact Hi|exact Hc|].
    intros [|j] c f Hj Hl; simpl in Hl.
    + now inversion Hl; subst.
    + apply (Hmin j c f); [lia|exact Hl].
Qed.

Lemma first_command_found cs text command func :
  (command, func) ∈ cs ->
  PyStr.contains command text = true ->
  is_Some (first_command cs text).
Proof.
  induction cs as [|[c0 f0] cs IH]; intros Hin Hc.
  - inversion Hin.
  - simpl. destruct (PyStr.contains c0 text) eqn:E; [eauto|].
    apply elem_of_cons in Hin as [[= -> ->]|Hin]; [congruence|].
    exact (IH Hin Hc).
Qed.

Lemma process_voice_command_keyword text s command func :
  first_command commands (PyStr.strip (PyStr.lower text)) = Some (command, func) ->
  process_voice_command text s = returned (func (PyStr.strip (PyStr.lower text)) s).
Proof. intros H. unfold process_voice_command. now rewrite H. Qed.

(** A plain keyword found in the utterance is found in its lowercased,
    trimmed form too. *)
Lemma plain_keyword_survives kw text :
  plain_keyword kw = true ->
  PyStr.contains kw text = true ->
  PyStr.contains kw (PyStr.strip (PyStr.lower text)) = true.
Proof.
  unfold plain_keyword. intros H Hc.
  apply andb_true_iff in H as [H Hlast]. apply andb_true_iff in H as [Hlow Hfirst].
  apply String.eqb_eq in Hlow.
  destruct kw as [|c r]; [discriminate|].
  destruct (PyStr.last_char (String c r)) as [z|] eqn:Hz; [|discriminate].
  apply negb_true_iff in Hfirst, Hlast.
  apply (contains_strip _ _ c z); eauto.
  rewrite <- Hlow. now apply contains_lower.
Qed.

Lemma registry_keywords_plain :
  forallb plain_keyword (map fst commands) = true.
Proof. reflexivity. Qed.

Lemma registry_keyword_survives text command func :
  (command, func) ∈ commands ->
  PyStr.contains command text = true ->
  PyStr.contains command (PyStr.strip (PyStr.lower text)) = true.
Proof.
  intros Hin. apply plain_keyword_survives.
  pose proof registry_keywords_plain as H.
  rewrite forallb_forall in H. apply H.
  apply list_elem_of_In. change command with (fst (command, func)).
  now apply list_elem_of_fmap_2.
Qed.

(** C3. The registry is checked in the order help, clear, remember, ...;
    whenever the lowercased and trimmed utterance contains at least one
    registry keyword as a substring, the handler that runs on it is the
    one of the keyword that comes first in that order among those
    contained, wherever the keywords stand in the utterance; a keyword
    that occurs in the utterance as spoken occurs in that form too.  For
    "remember help me budget" this is the handler of "help", the first
    keyword of the registry. *)
Theorem registry_order_decides :
  map fst commands
  = ["help"; "clear"; "remember"; "what do you remember"; "dashboard";
     "settings"; "analytics"; "chat"; "save"; "export"; "budget";
     "invest"; "savings"; "expenses"]
  /\ (forall text s,
        (exists command func,
            (command, func) ∈ commands
            /\ PyStr.contains command (PyStr.strip (PyStr.lower text)) = true) ->
        exists i command func,
          commands !! i = Some (command, func)
          /\ PyStr.contains command (PyStr.strip (PyStr.lower text)) = true
          /\ (forall j c f, j < i -> commands !! j = Some (c, f) ->
                PyStr.contains c (PyStr.strip (PyStr.lower text)) = false)
          /\ process_voice_command text s
             = returned (func (PyStr.strip (PyStr.lower text)) s))
  /\ (forall text command func,
        (command, func) ∈ commands ->
        PyStr.contains command text = true ->
        PyStr.contains command (PyStr.strip (PyStr.lower text)) = true)
  /\ (forall s,
        PyStr.contains "remember" "remember help me budget" = true
        /\ PyStr.contains "budget" "remember help me budget" = true
        /\ process_voice_command "remember help me budget" s
           = returned (show_help "remember help me budget" s)
        /\ process_voice_command "remember help me budget" s
           = (Some AvailableVoiceCommands, s)).
Proof.
  split; [reflexivity|]. split.
  - intros text s (command & func & Hin & Hc).
    destruct (first_command_found commands _ command func Hin Hc) as [[c f] Hf].
    destruct (first_command_least _ _ _ _ Hf) as (i & Hi & Hci & Hmin).
    exists i, c, f. split; [exact Hi|]. split; [exact Hci|]. split; [exact Hmin|].
    exact (process_voice_command_keyword _ _ _ _ Hf).
  - split; [exact registry_keyword_survives|]. intros s. split; [reflexivity|]. split; [reflexivity|]. split; reflexivity.
Qed.

Lemma registry_order_decides_witness :
  exists i command func,
    commands !! i = Some (command, func)
    /\ process_voice_command "Please CLEAR the chat" (Build_state None None None MemoryStorage.Absent)
       = returned (func "please clear the chat" (Build_state None None None MemoryStorage.Absent)).
Proof.
  destruct (proj1 (proj2 registry_order_decides) "Please CLEAR the chat"
              (Build_state None None None MemoryStorage.Absent))
    as (i & command & func & Hi & _ & _ & Hp).
  - exists "clear", clear_chat. split; [|reflexivity].
    apply (list_elem_of_lookup_2 commands 1). reflexivity.
  - exists i, command, func. split; [exact Hi|exact Hp].
Defined.

(** C10. An utterance that is "what do you remember" once lowercased and
    trimmed is answered by the remember handler with "Please specify what
    to remember", and the state is left as it was: in the registry
    "remember" (position 2) comes before "what do you remember"
    (position 3) and occurs in the utterance, and the handler's pattern
    [remember\s+(.+)] finds nothing after the final word. *)
Theorem what_do_you_remember_asks_to_specify text s :
  PyStr.strip (PyStr.lower text) = "what do you remember" ->
  process_voice_command text s = (Some PleaseSpecify, s)
  /\ process_voice_command text s
     = returned (remember_info "what do you remember" s)
  /\ first_command commands "what do you remember"
     = commands !! 2
  /\ commands !! 3 = Some ("what do you remember", show_memory)
  /\ re_remember "what do you remember" = None.
Proof.
  intros H. unfold process_voice_command. rewrite H. repeat split.
Qed.

Lemma what_do_you_remember_asks_to_specify_witness :
  process_voice_command "  What do you REMEMBER "
    (Build_state (Some []) None None MemoryStorage.Absent)
  = (Some PleaseSpecify, Build_state (Some []) None None MemoryStorage.Absent).
Proof.
  exact (proj1 (what_do_you_remember_asks_to_specify "  What do you REMEMBER "
                  (Build_state (Some []) None None MemoryStorage.Absent) eq_refl)).
Defined.

End VoiceFacts.

(** ** Chat turns *)

Section ChatFacts.
Import Chat MemoryStorage.
Variable chat : context -> string -> reply.

Lemma received_memory model_ready prompt s :
  memory (received model_ready prompt s) = memory s
  /\ memories_json (received model_ready prompt s) = memories_json s
  /\ model_calls (received model_ready prompt s) = model_calls s.
Proof. unfold received. now destruct model_ready. Qed.

Lemma remainder_count prompt :
  PyStr.count "=" (PyStr.remove_all "/remember " prompt)
  = PyStr.count "=" (remainder prompt).
Proof.
  rewrite count_remove_all by reflexivity. unfold remainder.
  destruct (PyStr.strip_prefix "/remember " prompt) as [rest|] eqn:E;
    [|reflexivity].
  apply strip_prefix_app in E. rewrite E at 1. now rewrite count_app.
Qed.

Lemma two_fields d s :
  PyStr.count d s = 1 <-> exists k v, PyStr.split_on d s = [k; v].
Proof.
  pose proof (split_on_length d s) as H. split.
  - intros E. rewrite E in H.
    destruct (PyStr.split_on d s) as [|k [|v [|x l]]]; try discriminate. eauto.
  - intros (k & v & E). rewrite E in H. simpl in H. lia.
Qed.

(** A malformed "/remember" directive: the remainder after the prefix does
    not hold exactly one "=".  The usage text is shown; the memory, its
    file and the record of model calls stay as they were. *)
Lemma remember_usage_error model_ready persona prompt s :
  PyStr.startswith prompt "/remember " = true ->
  PyStr.count "=" (remainder prompt) ≠ 1 ->
  handle_prompt chat model_ready persona prompt s
  = draw (st_error UseFormat) (received model_ready prompt s).
Proof.
  intros Hp Hc. unfold handle_prompt.
  rewrite Hp. rewrite <- remainder_count in Hc.
  destruct (PyStr.split_on "=" (PyStr.remove_all "/remember " prompt))
    as [|k [|v [|x l]]] eqn:E; try reflexivity.
  exfalso. apply Hc. apply two_fields. eauto.
Qed.

(** A well-formed directive in which "/remember " occurs at the start
    only: the two sides of the "=" of the remainder, stripped, are
    stored. *)
Lemma remember_stores_pair model_ready persona prompt s k v :
  PyStr.startswith prompt "/remember " = true ->
  PyStr.contains "/remember " (remainder prompt) = false ->
  PyStr.split_on "=" (remainder prompt) = [k; v] ->
  handle_prompt chat model_ready persona prompt s
  = draw (st_success (Remembered (PyStr.strip k) (PyStr.strip v)))
      (with_memory (set (memory s) (PyStr.strip k) (PyStr.strip v))
         (received model_ready prompt s)).
Proof.
  intros Hp Hc Hs. unfold handle_prompt.
  rewrite Hp. unfold remainder in Hc, Hs. unfold PyStr.startswith in Hp.
  destruct (PyStr.strip_prefix "/remember " prompt) as [rest|] eqn:E;
    [|discriminate].
  change (PyStr.contains "/remember " rest = false) in Hc.
  change (PyStr.split_on "=" rest = [k; v]) in Hs.
  destruct prompt as [|c p]; [discriminate E|].
  rewrite (remove_all_hit _ _ _ _ _ E), (remove_all_absent _ _ _ Hc), Hs.
  now destruct (received_memory model_ready (String c p) s) as (-> & _ & _).
Qed.

(** C4, at the input "/remember a/remember b=c".  The remainder after the
    prefix is "a/remember b=c", with exactly one "=" and the sides
    "a/remember b" and "c"; the code removes the second "/remember " too
    and stores "c" under the key "ab", and the key "a/remember b" keeps
    whatever binding it had. *)
Theorem remember_removes_inner_occurrences persona s :
  let prompt := "/remember a/remember b=c" in
  let s' := handle_prompt chat true persona prompt s in
  PyStr.startswith prompt "/remember " = true
  /\ PyStr.count "=" (remainder prompt) = 1
  /\ map PyStr.strip (PyStr.split_on "=" (remainder prompt)) = ["a/remember b"; "c"]
  /\ get_all (memory s') = <["ab" := "c"]> (get_all (memory s))
  /\ get_all (memory s') !! "a/remember b" = get_all (memory s) !! "a/remember b"
  /\ last (drawn s') = Some (st_success (Remembered "ab" "c")).
Proof.
  intros prompt s'.
  assert (Hs : s' = draw (st_success (Remembered "ab" "c"))
                      (with_memory (set (memory s) "ab" "c")
                         (received true prompt s))) by reflexivity.
  split; [reflexivity|]. split; [reflexivity|]. split; [reflexivity|].
  assert (Hg : get_all (memory s') = <["ab" := "c"]> (get_all (memory s))).
  { rewrite Hs. simpl. apply get_all_set. }
  split; [exact Hg|]. split.
  - rewrite Hg. now apply lookup_insert_ne.
  - rewrite Hs. unfold draw. simpl. apply last_snoc.
Qed.

(** A prompt that starts with "/remember " still starts with "/r" once
    trimmed and lowercased, so it is neither "/clear" nor "what do you
    remember?": for those two the first branch of the chain is not the one
    that runs. *)
Lemma remember_prefix_normalised prompt :
  PyStr.startswith prompt "/remember " = true ->
  exists rest, PyStr.lower (PyStr.strip prompt) = String "/" (String "r" rest).
Proof.
  intros E. unfold PyStr.startswith in E.
  destruct (PyStr.strip_prefix "/remember " prompt) as [rest|] eqn:Ep; [|discriminate].
  apply strip_prefix_app in Ep. subst prompt.
  rewrite !append_cons. unfold PyStr.strip.
  match goal with
  | |- context [PyStr.lstrip (String ?c ?t)] =>
      change (PyStr.lstrip (String c t)) with (String c t)
  end.
  do 2 rewrite rstrip_stop by reflexivity.
  eexists. reflexivity.
Qed.

Lemma clear_is_not_remember prompt :
  String.eqb (PyStr.lower (PyStr.strip prompt)) "/clear" = true ->
  PyStr.startswith prompt "/remember " = false.
Proof.
  intros H. destruct (PyStr.startswith prompt "/remember ") eqn:E; [|reflexivity].
  destruct (remember_prefix_normalised prompt E) as (rest & Hr).
  rewrite Hr in H. discriminate H.
Qed.

Lemma recall_is_not_remember prompt :
  String.eqb (PyStr.lower (PyStr.strip prompt)) "what do you remember?" = true ->
  PyStr.startswith prompt "/remember " = false
  /\ String.eqb (PyStr.lower (PyStr.strip prompt)) "/clear" = false.
Proof.
  intros H. split.
  - destruct (PyStr.startswith prompt "/remember ") eqn:E; [|reflexivity].
    destruct (remember_prefix_normalised prompt E) as (rest & Hr).
    rewrite Hr in H. discriminate H.
  - apply String.eqb_eq in H. now rewrite H.
Qed.

(** C6. A prompt matched by one of the three local directives is
    answered locally, without the language model: no call is recorded,
    the resulting state is the same whatever the model would have said,
    and the state is the local answer of the directive.  A prompt that
    starts with "/remember " stores the stripped pair and shows the
    confirmation when the text without "/remember " has exactly two
    "="-separated fields, and shows the usage text otherwise; "/clear"
    clears the profile's memory and shows "Memory cleared!"; "what do you
    remember?" shows the profile's memory, or that there is none.  In each
    case nothing else is drawn or recorded after the prompt has been taken
    in.  For "/remember budget=3000" the memory then binds "budget" to
    "3000" (in the store and in the file), the confirmation is shown, and
    no call is made. *)
Theorem directive_makes_no_model_call :
  (forall model_ready persona prompt s,
      is_directive prompt = true ->
      model_calls (handle_prompt chat model_ready persona prompt s) = model_calls s
      /\ (forall chat' : context -> string -> reply,
            handle_prompt chat' model_ready persona prompt s
            = handle_prompt chat model_ready persona prompt s)
      /\ (PyStr.startswith prompt "/remember " = true ->
          match PyStr.split_on "=" (PyStr.remove_all "/remember " prompt) with
          | [k; v] =>
              handle_prompt chat model_ready persona prompt s
              = draw (st_success (Remembered (PyStr.strip k) (PyStr.strip v)))
                  (with_memory (set (memory s) (PyStr.strip k) (PyStr.strip v))
                     (received model_ready prompt s))
          | _ =>
              handle_prompt chat model_ready persona prompt s
              = draw (st_error UseFormat) (received model_ready prompt s)
          end)
      /\ (String.eqb (PyStr.lower (PyStr.strip prompt)) "/clear" = true ->
          handle_prompt chat model_ready persona prompt s
          = draw (st_success MemoryCleared)
              (with_memory (clear (memory s) (memories_json s))
                 (received model_ready prompt s)))
      /\ (String.eqb (PyStr.lower (PyStr.strip prompt)) "what do you remember?"
          = true ->
          handle_prompt chat model_ready persona prompt s
          = if decide (get_all (memory s) = ∅)
            then draw (st_info NoMemoriesYet) (received model_ready prompt s)
            else draw (st_json (get_all (memory s)))
                   (draw (st_info HereIsWhatIRemember)
                      (received model_ready prompt s))))
  /\ (forall model_ready persona s,
        let s' := handle_prompt chat model_ready persona "/remember budget=3000" s in
        is_directive "/remember budget=3000" = true
        /\ get_all (memory s') !! "budget" = Some "3000"
        /\ memories_json s' = Json (data (memory s'))
        /\ last (drawn s') = Some (st_success (Remembered "budget" "3000"))
        /\ model_calls s' = model_calls s).
Proof.
  split.
  - intros model_ready persona prompt s Hd.
    destruct (received_memory model_ready prompt s) as (Hm & Hf & Hcalls).
    split; [|split; [|split; [|split]]].
    + unfold is_directive in Hd. unfold handle_prompt.
      destruct (PyStr.startswith prompt "/remember ").
      { now destruct (PyStr.split_on "=" (PyStr.remove_all "/remember " prompt))
          as [|k [|v [|x l]]]. }
      destruct (String.eqb (PyStr.lower (PyStr.strip prompt)) "/clear");
        [exact Hcalls|].
      destruct (String.eqb (PyStr.lower (PyStr.strip prompt)) "what do you remember?");
        [|discriminate Hd].
      now destruct (decide (get_all (memory (received model_ready prompt s)) = ∅)).
    + intros chat'. unfold is_directive in Hd. unfold handle_prompt.
      destruct (PyStr.startswith prompt "/remember "); [reflexivity|].
      destruct (String.eqb (PyStr.lower (PyStr.strip prompt)) "/clear");
        [reflexivity|].
      destruct (String.eqb (PyStr.lower (PyStr.strip prompt)) "what do you remember?");
        [reflexivity|discriminate Hd].
    + intros Hr. unfold handle_prompt. rewrite Hr, Hm.
      now destruct (PyStr.split_on "=" (PyStr.remove_all "/remember " prompt))
        as [|k [|v [|x l]]].
    + intros Hc. unfold handle_prompt.
      now rewrite (clear_is_not_remember prompt Hc), Hc, Hm, Hf.
    + intros Hw. destruct (recall_is_not_remember prompt Hw) as [Hr Hc].
      unfold handle_prompt. rewrite Hr, Hc, Hw, Hm.
      now destruct (decide (get_all (memory s) = ∅)).
  - intros model_ready persona s s'.
    assert (Hs : s' = draw (st_success (Remembered "budget" "3000"))
                        (with_memory (set (memory s) "budget" "3000")
                           (received model_ready "/remember budget=3000" s))).
    { subst s'. unfold handle_prompt.
      change (PyStr.startswith "/remember budget=3000" "/remember ") with true.
      change (PyStr.split_on "=" (PyStr.remove_all "/remember " "/remember budget=3000"))
        with ["budget"; "3000"].
      change (PyStr.strip "budget") with "budget".
      change (PyStr.strip "3000") with "3000".
      now destruct (received_memory model_ready "/remember budget=3000" s)
        as (-> & _ & _). }
    split; [reflexivity|]. rewrite Hs. split; [|split; [|split]].
    + change (get_all (fst (set (memory s) "budget" "3000")) !! "budget"
              = Some "3000").
      rewrite get_all_set. apply lookup_insert_eq.
    + reflexivity.
    + unfold draw. simpl. apply last_snoc.
    + change (model_calls (received model_ready "/remember budget=3000" s)
              = model_calls s).
      apply received_memory.
Qed.

(** C7. A turn that is no directive, with the model loaded and
    returning [response].  When the lowercased response contains
    "error", "apologize" or "sorry", the response is not displayed: the
    retry text is shown as an error and the transcript gains the user's
    turn only.  Otherwise the response is displayed and appended to the
    transcript as the assistant's turn.  Either way the model has been
    called once and the memory is untouched. *)
Theorem response_validation persona prompt s response :
  is_directive prompt = false ->
  chat {| persona := persona; memory_context := get_all (memory s) |} prompt
  = Returns response ->
  let s' := handle_prompt chat true persona prompt s in
  let bad := PyStr.contains "error" (PyStr.lower response)
             || PyStr.contains "apologize" (PyStr.lower response)
             || PyStr.contains "sorry" (PyStr.lower response) in
  (bad = true ->
   drawn s' = (drawn s ++ [st_markdown User (Plain prompt); st_error TryAgain])%list
   /\ messages s' = (messages s ++ [(User, Plain prompt)])%list)
  /\ (bad = false ->
      drawn s' = (drawn s ++ [st_markdown User (Plain prompt);
                              st_markdown Assistant (Plain response)])%list
      /\ messages s' = (messages s ++ [(User, Plain prompt);
                                       (Assistant, Plain response)])%list)
  /\ model_calls s'
     = (model_calls s
        ++ [({| persona := persona; memory_context := get_all (memory s) |}, prompt)])%list
  /\ memory s' = memory s
  /\ memories_json s' = memories_json s.
Proof.
  intros Hd Hchat s' bad.
  unfold is_directive in Hd.
  apply orb_false_iff in Hd as [Hd H3]. apply orb_false_iff in Hd as [H1 H2].
  assert (Hflag : flagged response = bad).
  { unfold flagged, bad. simpl. now rewrite orb_false_r, orb_assoc. }
  assert (Hs : s' = regular_response chat true persona prompt (received true prompt s)).
  { subst s'. unfold handle_prompt. now rewrite H1, H2, H3. }
  rewrite Hs. unfold regular_response.
  change (negb true) with false. cbv iota.
  change (get_all (memory (received true prompt s))) with (get_all (memory s)).
  rewrite Hchat, Hflag.
  split; [|split].
  - intros ->. simpl. now rewrite <- !app_assoc.
  - intros ->. simpl. now rewrite <- !app_assoc.
  - now destruct bad.
Qed.

End ChatFacts.

Lemma directive_makes_no_model_call_witness :
  let chat := fun (_ : Chat.context) (_ : string) => Chat.Throws "unreachable" in
  let s := Chat.Build_state [] (MemoryStorage.Build_MemoryStore "alice" ∅)
             MemoryStorage.Absent [] [] in
  Chat.model_calls (Chat.handle_prompt chat true "Student" "  /CLEAR " s) = [].
Proof.
  exact (proj1 (proj1 (directive_makes_no_model_call
                         (fun _ _ => Chat.Throws "unreachable"))
                  true "Student" "  /CLEAR "
                  (Chat.Build_state [] (MemoryStorage.Build_MemoryStore "alice" ∅)
                     MemoryStorage.Absent [] [])
                  eq_refl)).
Defined.

Lemma response_validation_witness :
  let chat := fun (_ : Chat.context) (_ : string) => Chat.Returns "I am SORRY, try later" in
  let s := Chat.Build_state [] (MemoryStorage.Build_MemoryStore "alice" ∅)
             MemoryStorage.Absent [] [] in
  Chat.messages (Chat.handle_prompt chat true "Student" "How should I save?" s)
  = [(Chat.User, Chat.Plain "How should I save?")].
Proof.
  exact (proj2 (proj1 (response_validation
                         (fun _ _ => Chat.Returns "I am SORRY, try later")
                         "Student" "How should I save?"
                         (Chat.Build_state [] (MemoryStorage.Build_MemoryStore "alice" ∅)
                            MemoryStorage.Absent [] [])
                         "I am SORRY, try later" eq_refl eq_refl) eq_refl)).
Defined.



(** * Further properties *)

(** ** MemoryStore: how the operations compose *)

Section MemoryStoreAlgebra.
Import MemoryStorage.

Lemma MemoryStore_eq st st' :
  profile_id st = profile_id st' -> data st = data st' -> st = st'.
Proof. destruct st, st'; simpl; intros -> ->; reflexivity. Qed.

Lemma set_unfold st k v :
  set st k v
  = ({| profile_id := profile_id st;
        data := <[profile_id st := <[k := v]> (get_all st)]> (data st) |},
     Json (<[profile_id st := <[k := v]> (get_all st)]> (data st))).
Proof.
  rewrite (surjective_pairing (set st k v)), set_file.
  rewrite <- (set_data st k v).
  reflexivity.
Qed.

(** Writing a key twice: the second value is the one kept, in the store
    and in the file, as if the first write had not been made. *)
Theorem set_last_write_wins st k v1 v2 :
  set (fst (set st k v1)) k v2 = set st k v2.
Proof.
  rewrite (set_unfold (fst (set st k v1))), get_all_set, set_profile, set_data.
  rewrite (set_unfold st k v2).
  now rewrite !insert_insert_eq.
Qed.



Lemma clear_other_profiles st f q :
  q ≠ profile_id st -> data (fst (clear st f)) !! q = data st !! q.
Proof.
  intros Hq. unfold clear.
  destruct (data st !! profile_id st); simpl; [|reflexivity].
  now apply lookup_insert_ne.
Qed.

Lemma clear_keeps_profiles st f : dom (data (fst (clear st f))) = dom (data st).
Proof.
  unfold clear. destruct (data st !! profile_id st) as [m|] eqn:E; simpl;
    [|reflexivity].
  rewrite dom_insert_L. apply (elem_of_dom_2 (D := gset string)) in E.
  apply subseteq_union_1_L. now apply singleton_subseteq_l.
Qed.

(** [clear] is idempotent on the store and on the file, leaves every
    other profile as it was, keeps the set of profiles (a cleared profile
    stays listed, with an empty mapping), and when the profile has no
    entry it changes nothing and writes nothing. *)
Theorem clear_idempotent_frame st f :
  clear (fst (clear st f)) (snd (clear st f)) = clear st f
  /\ (forall q, q ≠ profile_id st ->
        data (fst (clear st f)) !! q = data st !! q)
  /\ dom (data (fst (clear st f))) = dom (data st)
  /\ (data st !! profile_id st = None -> clear st f = (st, f)).
Proof.
  unfold clear.
  destruct (data st !! profile_id st) as [m|] eqn:E; simpl.
  - rewrite lookup_insert_eq, insert_insert_eq.
    split; [reflexivity|]. split; [|split; [|discriminate]].
    + intros q Hq. now apply lookup_insert_ne.
    + rewrite dom_insert_L. apply (elem_of_dom_2 (D := gset string)) in E.
      apply subseteq_union_1_L. now apply singleton_subseteq_l.
  - rewrite E. repeat split; reflexivity.
Qed.

Lemma clear_idempotent_frame_witness :
  let st := {| profile_id := "alice";
               data := {[ "bob" := {[ "goal" := "house" ]} ]} |} in
  clear st Absent = (st, Absent).
Proof.
  apply (proj2 (proj2 (proj2 (clear_idempotent_frame
                                {| profile_id := "alice";
                                   data := {[ "bob" := {[ "goal" := "house" ]} ]} |}
                                Absent)))).
  vm_compute. reflexivity.
Defined.

(** After a cleared profile is written to, its mapping holds that one
    binding only. *)
Theorem set_after_clear st f k v :
  get_all (fst (set (fst (clear st f)) k v)) = {[ k := v ]}.
Proof. rewrite get_all_set, get_all_clear. apply insert_empty. Qed.

(** Whatever series of [set] and [clear] is made through a store, the
    mappings of the other profiles stay what they were when the store was
    created, no profile disappears, and the store keeps its profile. *)
Theorem run_touches_own_profile_only ops st f :
  (forall q, q ≠ profile_id st ->
     data (fst (run ops (st, f))) !! q = data st !! q)
  /\ dom (data st) ⊆ dom (data (fst (run ops (st, f))))
  /\ profile_id (fst (run ops (st, f))) = profile_id st.
Proof.
  revert st f. induction ops as [|o ops IH]; intros st f.
  - split; [|split]; reflexivity.
  - change (run (o :: ops) (st, f)) with (run ops (step o (st, f))).
    rewrite (surjective_pairing (step o (st, f))).
    destruct (IH (fst (step o (st, f))) (snd (step o (st, f)))) as (H1 & H2 & H3).
    pose proof (step_profile o (st, f)) as Hp. simpl in Hp.
    assert (Hstep : (forall q, q ≠ profile_id st ->
                       data (fst (step o (st, f))) !! q = data st !! q)
                    /\ dom (data st) ⊆ dom (data (fst (step o (st, f))))).
    { destruct o as [k v|].
      - change (fst (step (OpSet k v) (st, f))) with (fst (set st k v)).
        rewrite set_data. split.
        + intros q Hq. now apply lookup_insert_ne.
        + rewrite dom_insert_L. apply union_subseteq_r.
      - change (fst (step OpClear (st, f))) with (fst (clear st f)).
        split; [intros q Hq; now apply clear_other_profiles|].
        now rewrite clear_keeps_profiles. }
    destruct Hstep as [Hs1 Hs2].
    split; [|split].
    + intros q Hq. rewrite H1 by (now rewrite Hp). now apply Hs1.
    + etrans; [exact Hs2|exact H2].
    + now rewrite H3.
Qed.

Lemma run_touches_own_profile_only_witness :
  let st := {| profile_id := "alice";
               data := {[ "bob" := {[ "goal" := "house" ]} ]} |} in
  data (fst (run [OpSet "budget" "3000"; OpClear; OpSet "rent" "900"] (st, Absent)))
  !! "bob" = Some {[ "goal" := "house" ]}.
Proof.
  refine (proj1 (run_touches_own_profile_only
                   [OpSet "budget" "3000"; OpClear; OpSet "rent" "900"]
                   {| profile_id := "alice";
                      data := {[ "bob" := {[ "goal" := "house" ]} ]} |} Absent)
            "bob" _).
  discriminate.
Defined.

(** Lost update.  Two stores are created from the same file for two
    different profiles.  The first writes a key; the second, which still
    holds what it loaded, writes afterwards.  The file then holds for the
    first profile what it held at the start: a store created anew for it
    does not see the first store's write. *)
Theorem stale_store_overwrites_other_profile f p q stp stq k v k' v' :
  p ≠ q ->
  __init__ p f = Ok stp ->
  __init__ q f = Ok stq ->
  let f1 := snd (set stp k v) in
  let f2 := snd (set stq k' v') in
  (exists st1, __init__ p f1 = Ok st1 /\ get_all st1 !! k = Some v)
  /\ (exists st2, __init__ p f2 = Ok st2 /\ get_all st2 = get_all stp).
Proof.
  intros Hpq Hp Hq f1 f2. split.
  - destruct (restart_get_all (fst (set stp k v)) f1 (set_in_sync stp k v))
      as (st1 & Hi & Hg).
    rewrite set_profile, (init_profile _ _ _ Hp) in Hi.
    exists st1. split; [exact Hi|]. rewrite Hg, get_all_set. apply lookup_insert_eq.
  - unfold __init__ in Hp, Hq. destruct (_load f) as [d|e]; [|discriminate].
    simpl in Hp, Hq. injection Hp as <-. injection Hq as <-.
    subst f2. rewrite set_unfold. simpl.
    eexists. split; [reflexivity|].
    unfold get_all. simpl. now rewrite lookup_insert_ne by congruence.
Qed.

Lemma stale_store_overwrites_other_profile_witness :
  exists st2,
    __init__ "alice"
      (snd (set {| profile_id := "bob"; data := ∅ |} "goal" "house")) = Ok st2
    /\ get_all st2 = get_all {| profile_id := "alice"; data := ∅ |}.
Proof.
  refine (proj2 (stale_store_overwrites_other_profile Absent "alice" "bob"
                   {| profile_id := "alice"; data := ∅ |}
                   {| profile_id := "bob"; data := ∅ |}
                   "budget" "3000" "goal" "house" _ eq_refl eq_refl)).
  discriminate.
Defined.

End MemoryStoreAlgebra.

(** ** Chat turns: what a turn does to each part of the state *)

Section ChatTurnFacts.
Import Chat MemoryStorage.
Variable chat : context -> string -> reply.

(** Case analysis following the if/elif chain of the script. *)
Ltac turn_cases prompt :=
  unfold handle_prompt;
  destruct (PyStr.startswith prompt "/remember ") eqn:Hrem;
  [ destruct (PyStr.split_on "=" (PyStr.remove_all "/remember " prompt))
      as [|k [|v [|x l]]] eqn:Hsplit
  | destruct (String.eqb (PyStr.lower (PyStr.strip prompt)) "/clear") eqn:Hclr;
    [ | destruct (String.eqb (PyStr.lower (PyStr.strip prompt))
                    "what do you remember?") eqn:Hwhat ] ].

Lemma received_messages model_ready prompt s :
  messages (received model_ready prompt s)
  = (messages s ++ if model_ready then [(User, Plain prompt)] else [])%list.
Proof. unfold received. destruct model_ready; simpl; [reflexivity|]. now rewrite app_nil_r. Qed.

Lemma regular_response_memory model_ready persona prompt s :
  memory (regular_response chat model_ready persona prompt s) = memory s
  /\ memories_json (regular_response chat model_ready persona prompt s)
     = memories_json s.
Proof.
  unfold regular_response. destruct model_ready; simpl negb; cbv iota.
  - destruct (chat _ prompt) as [r|e]; [destruct (flagged r)|]; split; reflexivity.
  - split; reflexivity.
Qed.

Lemma regular_response_calls persona prompt s :
  model_calls (regular_response chat true persona prompt s)
  = (model_calls s
     ++ [({| persona := persona; memory_context := get_all (memory s) |}, prompt)])%list.
Proof.
  unfold regular_response. change (negb true) with false. cbv iota.
  now destruct (chat _ prompt) as [r|e]; [destruct (flagged r)|].
Qed.

Lemma plain_turn model_ready persona prompt s :
  is_directive prompt = false ->
  handle_prompt chat model_ready persona prompt s
  = regular_response chat model_ready persona prompt (received model_ready prompt s).
Proof.
  unfold is_directive. intros Hd.
  apply orb_false_iff in Hd as [Hd H3]. apply orb_false_iff in Hd as [H1 H2].
  unfold handle_prompt. now rewrite H1, H2, H3.
Qed.

(** The model is called exactly when it is loaded and the prompt is no
    directive, once, with the prompt, the persona and the profile's
    memory as the store holds it before the turn. *)
Theorem model_called_iff_ready_and_no_directive model_ready persona prompt s :
  model_calls (handle_prompt chat model_ready persona prompt s)
  = (model_calls s
     ++ if model_ready && negb (is_directive prompt)
        then [({| persona := persona; memory_context := get_all (memory s) |}, prompt)]
        else [])%list.
Proof.
  destruct (received_memory model_ready prompt s) as (Hm & _ & Hc).
  unfold is_directive. turn_cases prompt; simpl orb; simpl negb;
    rewrite ?andb_false_r, ?andb_true_r, ?app_nil_r;
    try (destruct (decide _)); try exact Hc.
  unfold regular_response. destruct model_ready; simpl negb; cbv iota.
  - change (get_all (memory (received true prompt s))) with (get_all (memory s)).
    now destruct (chat _ prompt) as [r|e]; [destruct (flagged r)|].
  - simpl. now rewrite app_nil_r.
Qed.

(** The transcript only grows.  A turn appends the user's prompt when the
    model is loaded, and then, for a prompt that is no directive, the
    model's response unless it is flagged, or the error text when the
    model call raises.  With the model not loaded nothing is appended. *)
Theorem transcript_after_turn model_ready persona prompt s :
  messages (handle_prompt chat model_ready persona prompt s)
  = (messages s
     ++ (if model_ready then [(User, Plain prompt)] else [])
     ++ if model_ready && negb (is_directive prompt)
        then match chat {| persona := persona;
                           memory_context := get_all (memory s) |} prompt with
             | Returns response =>
                 if flagged response then [] else [(Assistant, Plain response)]
             | Throws e => [(Assistant, ErrorOccurred e)]
             end
        else [])%list.
Proof.
  pose proof (received_messages model_ready prompt s) as Hm.
  unfold is_directive. turn_cases prompt; simpl orb; simpl negb;
    rewrite ?andb_false_r, ?andb_true_r, ?app_nil_r;
    try (destruct (decide _)); try exact Hm.
  unfold regular_response. destruct model_ready; simpl negb; cbv iota.
  - change (get_all (memory (received true prompt s))) with (get_all (memory s)).
    destruct (chat _ prompt) as [r|e]; [destruct (flagged r)|]; simpl;
      rewrite <- ?app_assoc, ?app_nil_r; reflexivity.
  - simpl. now rewrite !app_nil_r.
Qed.

(** Only "/remember" and "/clear" touch the memory: any other prompt
    leaves the store and its file as they were. *)
Theorem memory_unchanged_without_directive model_ready persona prompt s :
  PyStr.startswith prompt "/remember " = false ->
  String.eqb (PyStr.lower (PyStr.strip prompt)) "/clear" = false ->
  memory (handle_prompt chat model_ready persona prompt s) = memory s
  /\ memories_json (handle_prompt chat model_ready persona prompt s)
     = memories_json s.
Proof.
  intros H1 H2.
  destruct (received_memory model_ready prompt s) as (Hm & Hf & _).
  unfold handle_prompt. rewrite H1, H2.
  destruct (String.eqb (PyStr.lower (PyStr.strip prompt)) "what do you remember?").
  - destruct (decide _); split; assumption.
  - unfold regular_response. destruct model_ready; simpl negb; cbv iota.
    + destruct (chat _ prompt) as [r|e]; [destruct (flagged r)|];
        split; reflexivity.
    + split; assumption.
Qed.

(** Every turn keeps the store and its file in agreement, and the store
    keeps its profile. *)
Theorem turn_keeps_file_in_sync model_ready persona prompt s :
  in_sync (memory s) (memories_json s) ->
  in_sync (memory (handle_prompt chat model_ready persona prompt s))
          (memories_json (handle_prompt chat model_ready persona prompt s))
  /\ profile_id (memory (handle_prompt chat model_ready persona prompt s))
     = profile_id (memory s).
Proof.
  intros Hs.
  destruct (received_memory model_ready prompt s) as (Hm & Hf & _).
  turn_cases prompt.
  1,2,4: split; simpl; rewrite ?Hm, ?Hf; try exact Hs; reflexivity.
  - split; [exact (set_in_sync _ _ _)|]. simpl. now rewrite Hm.
  - split; simpl; rewrite Hm, Hf; [now apply clear_in_sync|apply clear_profile].
  - destruct (decide _); split; simpl; rewrite ?Hm, ?Hf; try exact Hs; reflexivity.
  - destruct (regular_response_memory model_ready persona prompt
                (received model_ready prompt s)) as [E1 E2].
    rewrite E1, E2, Hm, Hf. split; [exact Hs|reflexivity].
Qed.

End ChatTurnFacts.

Lemma memory_unchanged_without_directive_witness :
  Chat.memory
    (Chat.handle_prompt (fun _ _ => Chat.Returns "Spend less.") true "Student"
       "How should I save?"
       (Chat.Build_state []
          (MemoryStorage.Build_MemoryStore "alice" {[ "alice" := {[ "budget" := "3000" ]} ]})
          MemoryStorage.Absent [] []))
  = MemoryStorage.Build_MemoryStore "alice" {[ "alice" := {[ "budget" := "3000" ]} ]}.
Proof.
  exact (proj1 (memory_unchanged_without_directive
                  (fun _ _ => Chat.Returns "Spend less.") true "Student"
                  "How should I save?"
                  (Chat.Build_state []
                     (MemoryStorage.Build_MemoryStore "alice"
                        {[ "alice" := {[ "budget" := "3000" ]} ]})
                     MemoryStorage.Absent [] [])
                  eq_refl eq_refl)).
Defined.

Lemma turn_keeps_file_in_sync_witness :
  let s := Chat.Build_state [] (MemoryStorage.Build_MemoryStore "alice" ∅)
             MemoryStorage.Absent [] [] in
  let s' := Chat.handle_prompt (fun _ _ => Chat.Returns "ok") false "Student"
              "/remember a=b" s in
  MemoryStorage.in_sync (Chat.memory s') (Chat.memories_json s').
Proof.
  exact (proj1 (turn_keeps_file_in_sync (fun _ _ => Chat.Returns "ok") false
                  "Student" "/remember a=b"
                  (Chat.Build_state [] (MemoryStorage.Build_MemoryStore "alice" ∅)
                     MemoryStorage.Absent [] [])
                  eq_refl)).
Defined.

Section ChatDirectiveFacts.
Import Chat MemoryStorage.
Variable chat : context -> string -> reply.

(** The "/clear" directive empties the profile's memory and nothing
    else: the other profiles keep their mappings, the transcript loses
    nothing (it gains the prompt when the model is loaded), and the
    confirmation is the last thing shown. *)
Theorem clear_directive_empties_memory_only model_ready persona prompt s :
  String.eqb (PyStr.lower (PyStr.strip prompt)) "/clear" = true ->
  let s' := handle_prompt chat model_ready persona prompt s in
  get_all (memory s') = ∅
  /\ (forall q, q ≠ profile_id (memory s) ->
        data (memory s') !! q = data (memory s) !! q)
  /\ messages s'
     = (messages s ++ if model_ready then [(User, Plain prompt)] else [])%list
  /\ last (drawn s') = Some (st_success MemoryCleared).
Proof.
  intros H s'. pose proof (clear_is_not_remember prompt H) as Hr.
  destruct (received_memory model_ready prompt s) as (Hm & Hf & _).
  assert (Hs : s' = draw (st_success MemoryCleared)
                      (with_memory (clear (memory s) (memories_json s))
                         (received model_ready prompt s))).
  { subst s'. unfold handle_prompt. now rewrite Hr, H, Hm, Hf. }
  rewrite Hs. split; [|split; [|split]].
  - apply get_all_clear.
  - intros q Hq. now apply clear_other_profiles.
  - apply received_messages.
  - unfold draw. simpl. apply last_snoc.
Qed.

(** A pair stored by a well-formed "/remember" directive is there in the
    turns that follow: "what do you remember?" shows a mapping that binds
    the key to the value, and a prompt that is no directive reaches the
    model with that binding in its memory context. *)
Theorem remembered_pair_reaches_later_turns
    ready1 ready2 persona prompt k v s :
  PyStr.startswith prompt "/remember " = true ->
  PyStr.split_on "=" (PyStr.remove_all "/remember " prompt) = [k; v] ->
  let s1 := handle_prompt chat ready1 persona prompt s in
  (exists m,
      m !! PyStr.strip k = Some (PyStr.strip v)
      /\ handle_prompt chat ready2 persona "what do you remember?" s1
         = draw (st_json m)
             (draw (st_info HereIsWhatIRemember)
                (received ready2 "what do you remember?" s1)))
  /\ (forall prompt2,
        is_directive prompt2 = false ->
        exists m,
          m !! PyStr.strip k = Some (PyStr.strip v)
          /\ last (model_calls (handle_prompt chat true persona prompt2 s1))
             = Some ({| persona := persona; memory_context := m |}, prompt2)).
Proof.
  intros Hp Hs s1.
  assert (Hg : get_all (memory s1) !! PyStr.strip k = Some (PyStr.strip v)).
  { subst s1. unfold handle_prompt. rewrite Hp, Hs.
    change (get_all (fst (set (memory (received ready1 prompt s))
                            (PyStr.strip k) (PyStr.strip v)))
            !! PyStr.strip k = Some (PyStr.strip v)).
    rewrite get_all_set. apply lookup_insert_eq. }
  split.
  - exists (get_all (memory s1)). split; [exact Hg|].
    destruct (received_memory ready2 "what do you remember?" s1) as (Hm & _ & _).
    unfold handle_prompt.
    change (PyStr.startswith "what do you remember?" "/remember ") with false.
    change (String.eqb (PyStr.lower (PyStr.strip "what do you remember?")) "/clear")
      with false.
    change (String.eqb (PyStr.lower (PyStr.strip "what do you remember?"))
              "what do you remember?") with true.
    cbv iota. rewrite Hm.
    destruct (decide (get_all (memory s1) = ∅)) as [E|_]; [|reflexivity].
    rewrite E in Hg. rewrite lookup_empty in Hg. discriminate.
  - intros prompt2 Hd. exists (get_all (memory s1)). split; [exact Hg|].
    rewrite (plain_turn chat true persona prompt2 s1 Hd), regular_response_calls.
    apply last_snoc.
Qed.

End ChatDirectiveFacts.

Lemma clear_directive_empties_memory_only_witness :
  MemoryStorage.get_all
    (Chat.memory
       (Chat.handle_prompt (fun _ _ => Chat.Returns "ok") true "Student" " /Clear "
          (Chat.Build_state []
             (MemoryStorage.Build_MemoryStore "alice" {[ "alice" := {[ "budget" := "3000" ]} ]})
             MemoryStorage.Absent [] [])))
  = ∅.
Proof.
  exact (proj1 (clear_directive_empties_memory_only
                  (fun _ _ => Chat.Returns "ok") true "Student" " /Clear "
                  (Chat.Build_state []
                     (MemoryStorage.Build_MemoryStore "alice"
                        {[ "alice" := {[ "budget" := "3000" ]} ]})
                     MemoryStorage.Absent [] [])
                  eq_refl)).
Defined.

Lemma remembered_pair_reaches_later_turns_witness :
  let s := Chat.Build_state [] (MemoryStorage.Build_MemoryStore "alice" ∅)
             MemoryStorage.Absent [] [] in
  let s1 := Chat.handle_prompt (fun _ _ => Chat.Returns "ok") true "Student"
              "/remember budget = 3000" s in
  exists m,
    m !! "budget" = Some "3000"
    /\ last (Chat.model_calls
               (Chat.handle_prompt (fun _ _ => Chat.Returns "ok") true "Student"
                  "How should I save?" s1))
       = Some ({| Chat.persona := "Student"; Chat.memory_context := m |},
               "How should I save?").
Proof.
  exact (proj2 (remembered_pair_reaches_later_turns
                  (fun _ _ => Chat.Returns "ok") true true "Student"
                  "/remember budget = 3000" "budget " " 3000"
                  (Chat.Build_state [] (MemoryStorage.Build_MemoryStore "alice" ∅)
                     MemoryStorage.Absent [] [])
                  eq_refl eq_refl)
           "How should I save?" eq_refl).
Defined.

(** ** Tokens: the cookie round trip and what can be rejected how *)

Section TokenDiscoveryFacts.
Import Auth.

Lemma remove_bearer_prefix tok :
  PyStr.contains "Bearer " tok = false ->
  PyStr.remove_all "Bearer " ("Bearer " +:+ tok) = tok.
Proof.
  intros Hc. pose proof (strip_prefix_of_app "Bearer " tok) as E.
  rewrite append_cons in E |- *.
  rewrite (remove_all_hit _ _ _ _ _ E). now apply remove_all_absent.
Qed.

(** The cookie set at login and signup is "Bearer " followed by the
    token.  Presented without a transport-level credential, it gives the
    token back, whatever the Authorization header holds, for every
    non-empty token in which "Bearer " does not occur (a JWT has no
    space). *)
Theorem login_cookie_round_trip authorization token tok :
  truthy token = false ->
  tok ≠ "" ->
  PyStr.contains "Bearer " tok = false ->
  candidate_token authorization (Some ("Bearer " +:+ tok)) token = Ok tok.
Proof.
  intros Ht Hne Hc. destruct tok as [|c r]; [contradiction|].
  apply candidate_token_cookie; [exact Ht|].
  pose proof (strip_prefix_of_app "Bearer " (String c r)) as E.
  rewrite append_cons in E |- *.
  rewrite (remove_all_hit _ _ _ _ _ E). now apply remove_all_absent.
Qed.

Lemma login_cookie_round_trip_witness :
  candidate_token (Some "Basic abc") (Some ("Bearer " +:+ "eyJ.abc.def")) None
  = Ok "eyJ.abc.def".
Proof.
  apply login_cookie_round_trip; [reflexivity|discriminate|reflexivity].
Defined.

(** The candidate handed to the decoder is never the empty string. *)
Theorem candidate_token_not_empty authorization access_token token tok :
  candidate_token authorization access_token token = Ok tok -> tok ≠ "".
Proof.
  unfold candidate_token.
  match goal with |- bind ?X _ = _ -> _ => destruct X as [[[|c0 t0]|]|e] end;
    simpl; intros H; inversion H; discriminate.
Qed.

Lemma candidate_token_not_empty_witness : "tok" ≠ "".
Proof.
  exact (candidate_token_not_empty (Some "bearer tok") (Some "Bearer ") (Some "")
           "tok" eq_refl).
Defined.

(** The 400 answer "Invalid authentication scheme" is given exactly when
    there is no transport-level credential, the cookie is missing or
    leaves nothing once "Bearer " is removed, and the Authorization header
    splits at white space into two fields whose first is not "bearer" in
    any letter case. *)
Theorem invalid_scheme_iff authorization access_token token :
  candidate_token authorization access_token token = Raise InvalidScheme
  <-> truthy token = false
      /\ (truthy access_token = false
          \/ exists cookie, access_token = Some cookie
                            /\ PyStr.remove_all "Bearer " cookie = "")
      /\ exists h scheme tok,
           authorization = Some h
           /\ PyStr.split (PyStr.strip h) = [scheme; tok]
           /\ String.eqb (PyStr.lower scheme) "bearer" = false.
Proof.
  split.
  - intros H. destruct (truthy token) eqn:Ht.
    { rewrite candidate_token_transport in H by exact Ht. discriminate. }
    assert (Hc : truthy access_token = false
                 \/ exists cookie, access_token = Some cookie
                                   /\ PyStr.remove_all "Bearer " cookie = "").
    { destruct access_token as [cookie|]; [|now left].
      destruct (PyStr.remove_all "Bearer " cookie) as [|c r] eqn:Er.
      - right. now exists cookie.
      - rewrite (candidate_token_cookie _ _ _ c r Ht Er) in H. discriminate. }
    split; [reflexivity|]. split; [exact Hc|].
    rewrite (candidate_token_header _ _ _ Ht Hc) in H.
    destruct authorization as [h|]; [|discriminate].
    destruct (PyStr.split (PyStr.strip h)) as [|scheme [|tok [|x l]]] eqn:Hs;
      try discriminate.
    exists h, scheme, tok. split; [reflexivity|]. split; [exact Hs|].
    destruct (String.eqb (PyStr.lower scheme) "bearer"); [|reflexivity].
    now destruct tok.
  - intros (Ht & Hc & h & scheme & tok & -> & Hs & Hb).
    rewrite (candidate_token_header _ _ _ Ht Hc). now rewrite Hs, Hb.
Qed.

Section Validation.
Context {user : Type}.
Variable jwt_decode : string -> option (gmap string string).
Variable get_user_by_email : string -> option user.

(** [get_current_user] never returns a user.  The module that main.py
    calls [db] has no attribute [get_user_by_email], so even a token that
    decodes to a subject ends in the 401 "Not authenticated".  The answer
    is the 400 "Invalid authentication scheme" exactly when the token
    discovery gives it, and the 401 in every other case. *)
Theorem get_current_user_never_authenticates authorization access_token token :
  (forall u,
     get_current_user jwt_decode get_user_by_email authorization access_token token
     <> Ok u)
  /\ (get_current_user jwt_decode get_user_by_email authorization access_token token
      = Raise InvalidScheme
      <-> candidate_token authorization access_token token = Raise InvalidScheme)
  /\ (candidate_token authorization access_token token <> Raise InvalidScheme ->
      get_current_user jwt_decode get_user_by_email authorization access_token token
      = Raise NotAuthenticated).
Proof.
  unfold get_current_user.
  change (db_has "get_user_by_email") with false.
  destruct (candidate_token authorization access_token token) as [tok|[|]];
    simpl.
  - assert (H : match jwt_decode tok with
                | Some payload =>
                    match payload !! "sub" with
                    | Some (String _ _) => Raise NotAuthenticated
                    | _ => Raise NotAuthenticated
                    end
                | None => Raise NotAuthenticated
                end = (Raise NotAuthenticated : result http_error user)).
    { destruct (jwt_decode tok) as [payload|]; [|reflexivity].
      now destruct (payload !! "sub") as [[|c e]|]. }
    rewrite H. split; [discriminate|]. split; [split; discriminate|reflexivity].
  - split; [discriminate|]. split; [split; discriminate|reflexivity].
  - split; [discriminate|]. split; [split; reflexivity|].
    intros Hn. now contradiction Hn.
Qed.

End Validation.
End TokenDiscoveryFacts.

Lemma invalid_scheme_iff_witness :
  Auth.candidate_token (Some "Digest abc") (Some "Bearer ") None
  = Raise Auth.InvalidScheme.
Proof.
  apply (proj2 (invalid_scheme_iff (Some "Digest abc") (Some "Bearer ") None)).
  split; [reflexivity|]. split.
  - right. exists "Bearer ". split; reflexivity.
  - exists "Digest abc", "Digest", "abc". repeat split.
Defined.

Lemma get_current_user_never_authenticates_witness :
  Auth.get_current_user
    (fun t : string =>
       if String.eqb t "t1" then Some ({[ "sub" := "a@b.c" ]} : gmap string string)
       else None)
    (fun e : string => if String.eqb e "a@b.c" then Some 7 else None)
    None None (Some "t1")
  = Raise Auth.NotAuthenticated.
Proof.
  apply (proj2 (proj2 (get_current_user_never_authenticates
                         (fun t : string =>
                            if String.eqb t "t1"
                            then Some ({[ "sub" := "a@b.c" ]} : gmap string string)
                            else None)
                         (fun e : string => if String.eqb e "a@b.c" then Some 7 else None)
                         None None (Some "t1")))).
  discriminate.
Defined.

(** ** Voice commands: the pattern fallbacks *)

Section VoiceFallbackFacts.
Import Voice.

Lemma first_command_none cs text command func :
  first_command cs text = None ->
  (command, func) ∈ cs ->
  PyStr.contains command text = false.
Proof.
  induction cs as [|[c0 f0] cs IH]; intros Hn Hin; [inversion Hin|].
  simpl in Hn. destruct (PyStr.contains c0 text) eqn:E; [discriminate|].
  apply elem_of_cons in Hin as [[= -> ->]|Hin]; [exact E|exact (IH Hn Hin)].
Qed.

(** With no registry keyword in the text, none of the fourteen occurs. *)
Lemma no_keyword text i command func :
  first_command commands text = None ->
  commands !! i = Some (command, func) ->
  PyStr.contains command text = false.
Proof.
  intros Hn Hi. apply (first_command_none commands text command func Hn).
  exact (list_elem_of_lookup_2 commands i _ Hi).
Qed.

(** A pattern that starts with a literal matches only in a text that
    contains the literal. *)
Lemma search_lit_contains {A} l (k : string -> option A) s r :
  search (lit l k) s = Some r -> PyStr.contains l s = true.
Proof.
  induction s as [|c s IH]; rewrite contains_unfold; simpl.
  - unfold lit, PyStr.startswith.
    destruct (PyStr.strip_prefix l ""); [reflexivity|discriminate].
  - unfold lit at 1, PyStr.startswith.
    destruct (PyStr.strip_prefix l (String c s)) as [rest|]; [reflexivity|].
    intros H. simpl. exact (IH H).
Qed.

(** The test [re.search(r'remember\s+(.+)', text)] of the fallback part is
    never true there: a text on which the pattern matches contains
    "remember", a registry keyword, and has been answered by the
    registry. *)
Theorem remember_fallback_never_runs text :
  is_Some (re_remember text) ->
  is_Some (first_command commands text).
Proof.
  intros [g Hg]. apply search_lit_contains in Hg.
  destruct (first_command commands text) as [e|] eqn:E; [eauto|].
  rewrite (no_keyword text 2 "remember" remember_info E eq_refl) in Hg.
  discriminate.
Qed.

Lemma remember_fallback_never_runs_witness :
  is_Some (first_command commands "please remember the milk").
Proof.
  apply remember_fallback_never_runs. vm_compute. eauto.
Defined.

(** What an utterance without any registry keyword gets.  If
    [go\s+to\s+(.+)] matches, the answer is always "Unknown navigation
    destination", since the four destinations are registry keywords; else
    if [show\s+(.+)] matches, the stored memory is shown when the text
    contains "memory" and "Unknown information request" is answered when
    it does not (the help text is never given here); else the utterance
    is passed on with [None].  The state changes in none of these cases. *)
Theorem fallback_outcomes text s :
  let t := PyStr.strip (PyStr.lower text) in
  first_command commands t = None ->
  process_voice_command text s
  = (if bool_decide (is_Some (re_go_to t)) then Some UnknownDestination
     else if bool_decide (is_Some (re_show t)) then
            if PyStr.contains "memory" t then fst (returned (show_memory t s))
            else Some UnknownInformation
     else None,
     s).
Proof.
  intros t Hn. unfold process_voice_command. fold t. rewrite Hn.
  assert (Hr : re_remember t = None).
  { destruct (re_remember t) as [g|] eqn:Eg; [|reflexivity].
    apply search_lit_contains in Eg.
    rewrite (no_keyword t 2 "remember" remember_info Hn eq_refl) in Eg.
    discriminate. }
  rewrite Hr.
  rewrite (bool_decide_eq_false_2 (is_Some None)) by (intros [? ?]; discriminate).
  destruct (bool_decide (is_Some (re_go_to t))).
  - unfold navigate_to.
    rewrite (no_keyword t 4 _ _ Hn eq_refl), (no_keyword t 5 _ _ Hn eq_refl),
      (no_keyword t 6 _ _ Hn eq_refl), (no_keyword t 7 _ _ Hn eq_refl).
    reflexivity.
  - destruct (bool_decide (is_Some (re_show t))); [|reflexivity].
    unfold show_info.
    rewrite (no_keyword t 0 _ _ Hn eq_refl), (no_keyword t 2 _ _ Hn eq_refl).
    rewrite orb_false_r.
    destruct (PyStr.contains "memory" t); [|reflexivity].
    unfold show_memory, returned.
    destruct (memory s) as [m|]; [destruct (decide _)|]; reflexivity.
Qed.

Lemma fallback_outcomes_witness :
  process_voice_command "Go to my profile" (Build_state None None None MemoryStorage.Absent)
  = (Some UnknownDestination, Build_state None None None MemoryStorage.Absent).
Proof.
  exact (fallback_outcomes "Go to my profile"
           (Build_state None None None MemoryStorage.Absent) eq_refl).
Defined.

End VoiceFallbackFacts.

(** ** Voice commands: what an utterance can change *)

Section VoiceStateFacts.
Import Voice MemoryStorage.

Lemma last_char_cons c s :
  PyStr.last_char (String c s)
  = match s with EmptyString => Some c | _ => PyStr.last_char s end.
Proof. now destruct s. Qed.

Lemma ends_clean_tail c s : PyStr.ends_clean (String c s) -> PyStr.ends_clean s.
Proof. unfold PyStr.ends_clean. rewrite last_char_cons. now destruct s. Qed.

Lemma ends_clean_rstrip s : PyStr.ends_clean (PyStr.rstrip s).
Proof.
  induction s as [|c s IH]; [exact I|]. simpl.
  destruct (PyStr.rstrip s) as [|c' r] eqn:E.
  - destruct (PyStr.isspace c) eqn:Ec; [exact I|exact Ec].
  - unfold PyStr.ends_clean in *. now rewrite last_char_cons.
Qed.

Lemma ends_clean_suffix a b : PyStr.ends_clean (a +:+ b) -> PyStr.ends_clean b.
Proof.
  induction a as [|c a IH]; [now rewrite append_nil|].
  rewrite append_cons. intros H. apply IH. exact (ends_clean_tail _ _ H).
Qed.

Lemma not_space_not_newline c :
  PyStr.isspace c = false -> Ascii.eqb c newline = false.
Proof.
  intros H. destruct (Ascii.eqb_spec c newline) as [->|]; [discriminate H|reflexivity].
Qed.

(** In a text that starts with white space and ends clean, [\s+(.+)]
    finds a group. *)
Lemma ws_plus_succeeds u :
  forall d, PyStr.isspace d = true -> PyStr.ends_clean (String d u) ->
            ws_plus dot_plus (String d u) <> None.
Proof.
  induction u as [|e u IH]; intros d Hd Hc.
  - unfold PyStr.ends_clean in Hc. simpl in Hc. congruence.
  - pose proof (ends_clean_tail _ _ Hc) as Hc'.
    change (ws_plus dot_plus (String d (String e u)))
      with (if PyStr.isspace d
            then match ws_plus dot_plus (String e u) with
                 | Some r => Some r
                 | None => dot_plus (String e u)
                 end
            else None).
    rewrite Hd. destruct (PyStr.isspace e) eqn:Ee.
    + specialize (IH e Ee Hc').
      now destruct (ws_plus dot_plus (String e u)).
    + destruct (ws_plus dot_plus (String e u)); [discriminate|].
      unfold dot_plus. simpl. now rewrite (not_space_not_newline _ Ee).
Qed.

(** There the group starts with a character that is not white space. *)
Lemma ws_plus_group s :
  PyStr.ends_clean s ->
  forall g, ws_plus dot_plus s = Some g ->
            exists x g', g = String x g' /\ PyStr.isspace x = false.
Proof.
  induction s as [|c s IH]; intros Hc g; [discriminate|].
  pose proof (ends_clean_tail _ _ Hc) as Hs.
  change (ws_plus dot_plus (String c s))
    with (if PyStr.isspace c
          then match ws_plus dot_plus s with
               | Some r => Some r
               | None => dot_plus s
               end
          else None).
  destruct (PyStr.isspace c) eqn:Ec; [|discriminate].
  destruct (ws_plus dot_plus s) as [r|] eqn:Er.
  - intros [= <-]. exact (IH Hs r eq_refl).
  - destruct s as [|c' s']; [discriminate|].
    destruct (PyStr.isspace c') eqn:Ec'.
    + exfalso. exact (ws_plus_succeeds s' c' Ec' Hs Er).
    + unfold dot_plus. simpl. rewrite (not_space_not_newline _ Ec').
      intros [= <-]. eauto.
Qed.

Lemma search_remember_group t g :
  PyStr.ends_clean t ->
  re_remember t = Some g ->
  exists x g', g = String x g' /\ PyStr.isspace x = false.
Proof.
  unfold re_remember. induction t as [|c t IH]; intros Hc.
  - simpl. unfold lit. simpl. discriminate.
  - simpl.
    destruct (lit "remember" (ws_plus dot_plus) (String c t)) as [r|] eqn:El.
    + intros [= <-]. unfold lit in El.
      destruct (PyStr.strip_prefix "remember" (String c t)) as [rest|] eqn:Ep;
        [|discriminate].
      apply strip_prefix_app in Ep. rewrite Ep in Hc.
      exact (ws_plus_group rest (ends_clean_suffix _ _ Hc) r El).
    + intros H. exact (IH (ends_clean_tail _ _ Hc) H).
Qed.

Lemma strip_group_nonempty x g :
  PyStr.isspace x = false -> PyStr.strip (String x g) <> "".
Proof.
  intros Hx. unfold PyStr.strip. simpl PyStr.lstrip. rewrite Hx.
  now rewrite rstrip_stop.
Qed.

(** Without a registry keyword the state is left alone and the answer is
    not "Remembered". *)
Lemma fallback_quiet text s :
  first_command commands (PyStr.strip (PyStr.lower text)) = None ->
  snd (process_voice_command text s) = s
  /\ forall info, fst (process_voice_command text s) <> Some (RememberedInfo info).
Proof.
  intros Hn. unfold process_voice_command. rewrite Hn.
  set (t := PyStr.strip (PyStr.lower text)) in *.
  assert (Hr : re_remember t = None).
  { destruct (re_remember t) as [g|] eqn:Eg; [|reflexivity].
    apply search_lit_contains in Eg.
    rewrite (no_keyword t 2 "remember" remember_info Hn eq_refl) in Eg.
    discriminate. }
  rewrite Hr.
  rewrite (bool_decide_eq_false_2 (is_Some None)) by (intros [? ?]; discriminate).
  destruct (bool_decide (is_Some (re_go_to t))).
  - unfold navigate_to.
    rewrite (no_keyword t 4 _ _ Hn eq_refl), (no_keyword t 5 _ _ Hn eq_refl),
      (no_keyword t 6 _ _ Hn eq_refl), (no_keyword t 7 _ _ Hn eq_refl).
    split; [reflexivity|discriminate].
  - destruct (bool_decide (is_Some (re_show t))); [|split; [reflexivity|discriminate]].
    unfold show_info.
    rewrite (no_keyword t 0 _ _ Hn eq_refl), (no_keyword t 2 _ _ Hn eq_refl).
    rewrite orb_false_r.
    destruct (PyStr.contains "memory" t); [|split; [reflexivity|discriminate]].
    unfold show_memory, returned.
    destruct (memory s) as [m|]; [destruct (decide _)|];
      (split; [reflexivity|discriminate]).
Qed.

Lemma normalised_ends_clean text : PyStr.ends_clean (PyStr.strip (PyStr.lower text)).
Proof. apply ends_clean_rstrip. Qed.

Lemma unchanged_as_told r s : changes_as_told r s s.
Proof. repeat split. Qed.

(** Case analysis over the entries of the registry. *)
Ltac by_entry H i k :=
  first [ discriminate H
        | destruct i as [|i]; [injection H as <- <-; k | by_entry H i k] ].

Lemma handler_changes_as_told i command func t s :
  commands !! i = Some (command, func) ->
  changes_as_told (Some (fst (func t s))) s (snd (func t s)).
Proof.
  intros H.
  by_entry H i ltac:(try apply unchanged_as_told).
  - (* clear *)
    unfold changes_as_told, clear_chat. simpl. split; [|split].
    + intros _. now destruct (messages s).
    + intros Hn. exfalso. now apply Hn.
    + intros _. now destruct (messages s).
  - (* remember *)
    unfold remember_info. destruct (re_remember t) as [g|]; simpl;
      [|apply unchanged_as_told].
    unfold changes_as_told. simpl. split; [|split].
    + intros Hn. exfalso. now apply (Hn (PyStr.strip g)).
    + intros _. now destruct (memory s).
    + intros _. now destruct (memory s).
  - (* what do you remember *)
    unfold show_memory. destruct (memory s) as [m|]; [destruct (decide _)|];
      apply unchanged_as_told.
  - split; [|split]; [now intros _|now intros _|].
    intros Hn. exfalso. now apply (Hn "Dashboard").
  - split; [|split]; [now intros _|now intros _|].
    intros Hn. exfalso. now apply (Hn "Settings").
  - split; [|split]; [now intros _|now intros _|].
    intros Hn. exfalso. now apply (Hn "Analytics").
  - split; [|split]; [now intros _|now intros _|].
    intros Hn. exfalso. now apply (Hn "Chat Assistant").
Qed.

(** Whatever the utterance, the state changes only as the response tells:
    the memory and its file change only with "Remembered", the transcript
    only with "Chat history cleared", the current page only with
    "Navigated to". *)
Theorem voice_changes_as_told text s :
  ((forall info, fst (process_voice_command text s) <> Some (RememberedInfo info)) ->
   memory (snd (process_voice_command text s)) = memory s
   /\ memories_json (snd (process_voice_command text s)) = memories_json s)
  /\ (fst (process_voice_command text s) <> Some ChatHistoryCleared ->
      messages (snd (process_voice_command text s)) = messages s)
  /\ ((forall page, fst (process_voice_command text s) <> Some (NavigatedTo page)) ->
      current_page (snd (process_voice_command text s)) = current_page s).
Proof.
  change (changes_as_told (fst (process_voice_command text s)) s
            (snd (process_voice_command text s))).
  destruct (first_command commands (PyStr.strip (PyStr.lower text)))
    as [[c f]|] eqn:E.
  - rewrite (process_voice_command_keyword text s c f E).
    destruct (first_command_least _ _ _ _ E) as (i & Hi & _).
    exact (handler_changes_as_told i c f _ s Hi).
  - destruct (fallback_quiet text s E) as [Hs _]. rewrite Hs.
    apply unchanged_as_told.
Qed.

Lemma voice_changes_as_told_witness :
  messages (snd (process_voice_command "go to the dashboard"
                   (Build_state (Some [("user", "hi")]) None None Absent)))
  = Some [("user", "hi")].
Proof.
  apply (proj1 (proj2 (voice_changes_as_told "go to the dashboard"
                         (Build_state (Some [("user", "hi")]) None None Absent)))).
  discriminate.
Defined.

(** A note is never empty: when the answer is "Remembered: info", [info]
    has at least one character. *)
Theorem remembered_info_not_empty text s info :
  fst (process_voice_command text s) = Some (RememberedInfo info) ->
  info <> "".
Proof.
  destruct (first_command commands (PyStr.strip (PyStr.lower text)))
    as [[c f]|] eqn:E.
  - rewrite (process_voice_command_keyword text s c f E).
    destruct (first_command_least _ _ _ _ E) as (i & Hi & _).
    by_entry Hi i ltac:(try discriminate).
    + unfold remember_info.
      destruct (re_remember (PyStr.strip (PyStr.lower text))) as [g|] eqn:Eg;
        [|discriminate].
      destruct (search_remember_group _ g (normalised_ends_clean text) Eg)
        as (x & g' & -> & Hx).
      simpl. intros [= <-]. now apply strip_group_nonempty.
    + unfold show_memory. destruct (memory s) as [m|]; [destruct (decide _)|];
        discriminate.
  - intros H. destruct (fallback_quiet text s E) as [_ Hq].
    exfalso. exact (Hq info H).
Qed.

Lemma remembered_info_not_empty_witness : "my budget is 3000" <> "".
Proof.
  exact (remembered_info_not_empty "Remember my budget is 3000 "
           (Build_state None None None Absent) "my budget is 3000" eq_refl).
Defined.

(** An utterance with "remember" followed by something to remember, and
    without "help" or "clear" before it in the registry order, is answered
    "Remembered".  With a memory store in the session the note goes under
    the one key "voice_note": a new note replaces the previous one and the
    other keys keep their values; the file is rewritten.  Without a memory
    store the answer is the same and nothing is stored. *)
Theorem voice_note_is_stored text s g :
  let t := PyStr.strip (PyStr.lower text) in
  PyStr.contains "help" t = false ->
  PyStr.contains "clear" t = false ->
  re_remember t = Some g ->
  fst (process_voice_command text s) = Some (RememberedInfo (PyStr.strip g))
  /\ (forall m, memory s = Some m ->
        exists m',
          snd (process_voice_command text s)
          = {| messages := messages s; memory := Some m';
               current_page := current_page s;
               memories_json := Json (data m') |}
          /\ get_all m' = <["voice_note" := PyStr.strip g]> (get_all m))
  /\ (memory s = None -> snd (process_voice_command text s) = s).
Proof.
  intros t H1 H2 Hg.
  assert (Hf : first_command commands t = Some ("remember", remember_info)).
  { unfold commands. cbn [first_command]. rewrite H1, H2.
    now rewrite (search_lit_contains _ _ _ _ Hg). }
  rewrite (process_voice_command_keyword text s _ _ Hf). fold t.
  unfold remember_info. rewrite Hg. simpl.
  split; [reflexivity|]. split.
  - intros m ->. eexists. split; [reflexivity|]. apply get_all_set.
  - now intros ->.
Qed.

Lemma voice_note_is_stored_witness :
  fst (process_voice_command "Remember my budget is 3000"
         (Build_state None None None Absent))
  = Some (RememberedInfo "my budget is 3000").
Proof.
  exact (proj1 (voice_note_is_stored "Remember my budget is 3000"
                  (Build_state None None None Absent) "my budget is 3000"
                  eq_refl eq_refl eq_refl)).
Defined.

End VoiceStateFacts.

(** ** The model's failures and the response check *)

Section EngineFailureFacts.
Import Chat.

Lemma error_reply_flagged error_msg :
  flagged (ModelProvider.error_reply error_msg) = true.
Proof.
  unfold flagged. cbn [existsb].
  assert (H : PyStr.contains "error"
                (PyStr.lower (ModelProvider.error_reply error_msg)) = true).
  { apply contains_iff. unfold ModelProvider.error_reply.
    rewrite lower_app.
    exists "i apologize, but i encountered an ",
           (": " +:+ PyStr.lower (error_msg +:+ ". Please try again later.")).
    reflexivity. }
  now rewrite H.
Qed.

(** A failure inside [GraniteHF.chat] comes back as its apology text,
    which the response check of the chat page always flags.  So such a
    turn shows the retry text and records the user's prompt only: the
    apology with the error message is neither shown nor added to the
    transcript. *)
Theorem engine_failure_shows_retry render generate persona prompt s error_msg :
  is_directive prompt = false ->
  generate (render {| persona := persona;
                      memory_context := MemoryStorage.get_all (memory s) |}) prompt
  = Raise error_msg ->
  let s' := handle_prompt (ModelProvider.granite render generate) true
              persona prompt s in
  flagged (ModelProvider.error_reply error_msg) = true
  /\ drawn s' = (drawn s ++ [st_markdown User (Plain prompt); st_error TryAgain])%list
  /\ messages s' = (messages s ++ [(User, Plain prompt)])%list.
Proof.
  intros Hd Hg s'. split; [apply error_reply_flagged|].
  subst s'. rewrite (plain_turn _ _ _ _ _ Hd).
  unfold regular_response. change (negb true) with false. cbv iota.
  change (MemoryStorage.get_all (memory (received true prompt s)))
    with (MemoryStorage.get_all (memory s)).
  unfold ModelProvider.granite, ModelProvider.chat. rewrite Hg.
  rewrite error_reply_flagged. simpl.
  split; [now rewrite <- app_assoc | reflexivity].
Qed.

End EngineFailureFacts.

Lemma engine_failure_shows_retry_witness :
  let s := Chat.Build_state [] (MemoryStorage.Build_MemoryStore "alice" ∅)
             MemoryStorage.Absent [] [] in
  Chat.messages
    (Chat.handle_prompt
       (ModelProvider.granite (fun _ => "system") (fun _ _ => Raise "CUDA out of memory"))
       true "Student" "How should I save?" s)
  = [(Chat.User, Chat.Plain "How should I save?")].
Proof.
  exact (proj2 (proj2 (engine_failure_shows_retry
                         (fun _ => "system") (fun _ _ => Raise "CUDA out of memory")
                         "Student" "How should I save?"
                         (Chat.Build_state [] (MemoryStorage.Build_MemoryStore "alice" ∅)
                            MemoryStorage.Absent [] [])
                         "CUDA out of memory" eq_refl eq_refl))).
Defined.

(** ** Accounts: creating a user, logging in, and the session cookie *)

Section AccountFacts.
Import Database.
Variable hash : string -> string.
Variable verify : string -> string -> bool.

Lemma find_none_existsb {A} (f : A -> bool) l :
  List.find f l = None <-> existsb f l = false.
Proof.
  induction l as [|a l IH]; simpl; [tauto|].
  destruct (f a); simpl; [split; discriminate|exact IH].
Qed.

Lemma find_app_new {A} (f : A -> bool) l a :
  List.find f l = None -> f a = true -> List.find f (l ++ [a]) = Some a.
Proof.
  induction l as [|b l IH]; simpl; intros Hn Ha; [now rewrite Ha|].
  destruct (f b); [discriminate|]. now apply IH.
Qed.

Lemma find_app_old {A} (f : A -> bool) l a d :
  List.find f l = Some d -> List.find f (l ++ [a]) = Some d.
Proof.
  induction l as [|b l IH]; simpl; [discriminate|].
  destruct (f b); [trivial|exact IH].
Qed.

Lemma with_id_lookup oid (d : gmap string value) k :
  k ≠ "_id" -> with_id oid d !! k = d !! k.
Proof.
  intros Hk. unfold with_id. destruct (d !! "_id"); [reflexivity|].
  now apply lookup_insert_ne.
Qed.

Lemma prepared_email user_data password c u :
  prepared hash user_data password c u !! "email" = user_data !! "email".
Proof. unfold prepared. now rewrite !lookup_insert_ne by discriminate. Qed.

Lemma prepared_password user_data password c u :
  prepared hash user_data password c u !! "password" = Some (VStr (hash password)).
Proof.
  unfold prepared. rewrite !lookup_insert_ne by discriminate.
  apply lookup_insert_eq.
Qed.

Lemma create_user_new users user_data password email oid c u :
  user_data !! "password" = Some (VStr password) ->
  user_data !! "email" = Some (VStr email) ->
  find_one users email = None ->
  create_user hash users user_data oid c u
  = (InsertedId (default (VId oid)
                   (with_id oid (prepared hash user_data password c u) !! "_id")),
     (users ++ [with_id oid (prepared hash user_data password c u)])%list).
Proof.
  intros Hp He Hn. unfold create_user. rewrite Hp. fold (prepared hash user_data password c u).
  unfold insert_one. rewrite prepared_email, He.
  apply find_none_existsb in Hn. unfold has_email in Hn. now rewrite Hn.
Qed.

Lemma create_user_taken users user_data password email oid c u d :
  user_data !! "password" = Some (VStr password) ->
  user_data !! "email" = Some (VStr email) ->
  find_one users email = Some d ->
  create_user hash users user_data oid c u = (Error_EmailExists, users).
Proof.
  intros Hp He Hn. unfold create_user. rewrite Hp. fold (prepared hash user_data password c u).
  unfold insert_one. rewrite prepared_email, He.
  destruct (existsb _ users) eqn:E; [reflexivity|].
  apply find_none_existsb in E. unfold find_one, has_email in Hn. congruence.
Qed.

Lemma find_one_other users d email email' :
  d !! "email" = Some (VStr email) -> email' ≠ email ->
  find_one (users ++ [d]) email' = find_one users email'.
Proof.
  intros Hd Hne. unfold find_one.
  destruct (List.find (has_email email') users) as [d'|] eqn:E.
  - now apply find_app_old.
  - induction users as [|b l IH]; simpl in *.
    + unfold has_email. rewrite Hd.
      rewrite bool_decide_eq_false_2; [reflexivity|congruence].
    + destruct (has_email email' b); [discriminate|]. now apply IH.
Qed.

(** A user created under an email that is not taken yet can log in:
    [authenticate_user] returns the stored document exactly for the
    passwords that [verify] accepts against the hash.  The document holds
    the hash, not the password that was given, and the lookups of every
    other email are what they were. *)
Theorem created_user_can_log_in users user_data password email oid c u :
  user_data !! "password" = Some (VStr password) ->
  user_data !! "email" = Some (VStr email) ->
  find_one users email = None ->
  let r := create_user hash users user_data oid c u in
  exists id doc,
    r = (InsertedId id, (users ++ [doc])%list)
    /\ doc !! "password" = Some (VStr (hash password))
    /\ doc !! "email" = Some (VStr email)
    /\ (forall p, authenticate_user verify (snd r) email p
                  = Ok (if verify p (hash password) then Some doc else None))
    /\ (forall email', email' ≠ email ->
          find_one (snd r) email' = find_one users email').
Proof.
  intros Hp He Hn r. subst r.
  rewrite (create_user_new users user_data password email oid c u Hp He Hn).
  set (doc := with_id oid (prepared hash user_data password c u)).
  assert (Hdp : doc !! "password" = Some (VStr (hash password))).
  { unfold doc. rewrite with_id_lookup by discriminate. apply prepared_password. }
  assert (Hde : doc !! "email" = Some (VStr email)).
  { unfold doc. rewrite with_id_lookup by discriminate.
    now rewrite prepared_email. }
  eexists _, doc. split; [reflexivity|]. split; [exact Hdp|]. split; [exact Hde|].
  split.
  - intros p. unfold authenticate_user, find_one. simpl snd.
    rewrite (find_app_new (has_email email) users doc Hn)
      by (unfold has_email; now rewrite Hde, bool_decide_eq_true_2).
    rewrite Hdp. now destruct (verify p (hash password)).
  - intros email' Hne. simpl snd. now apply (find_one_other users doc email).
Qed.

(** [create_user] keeps the emails of the collection unique, whatever it
    is given; when it does not insert, the collection is unchanged, and a
    taken email is answered with "Email already exists". *)
Theorem create_user_keeps_emails_unique users user_data oid c u :
  emails_unique users ->
  emails_unique (snd (create_user hash users user_data oid c u))
  /\ ((exists id, fst (create_user hash users user_data oid c u) = InsertedId id)
      \/ snd (create_user hash users user_data oid c u) = users)
  /\ (forall password email d,
        user_data !! "password" = Some (VStr password) ->
        user_data !! "email" = Some (VStr email) ->
        find_one users email = Some d ->
        create_user hash users user_data oid c u = (Error_EmailExists, users)).
Proof.
  intros Hu. split; [|split].
  - unfold create_user.
    destruct (user_data !! "password") as [[password| | |]|]; try exact Hu.
    fold (prepared hash user_data password c u). unfold insert_one.
    destruct (existsb _ users) eqn:E; [exact Hu|]. simpl.
    unfold emails_unique. rewrite map_app. apply NoDup_app.
    split; [exact Hu|]. split; [|apply NoDup_singleton].
    intros x Hx Hx'. apply list_elem_of_singleton in Hx'. subst x.
    apply list_elem_of_fmap in Hx as (d' & Hd' & Hin).
    rewrite with_id_lookup in Hd' by discriminate.
    assert (Hex : existsb (fun d0 => bool_decide
                     (d0 !! "email" = prepared hash user_data password c u !! "email"))
                    users = true).
    { apply existsb_exists. exists d'. split; [now apply list_elem_of_In|].
      now apply bool_decide_eq_true_2. }
    congruence.
  - unfold create_user.
    destruct (user_data !! "password") as [[password| | |]|]; try (now right).
    unfold insert_one. destruct (existsb _ users); [now right|]. left. eauto.
  - intros password email d. apply create_user_taken.
Qed.

End AccountFacts.

Lemma created_user_can_log_in_witness :
  exists id doc,
    Database.create_user (fun p => "h:" +:+ p) []
      {[ "email" := Database.VStr "a@b.c"; "password" := Database.VStr "pw" ]}
      "oid1" 1 2
    = (Database.InsertedId id, [doc])
    /\ doc !! "password" = Some (Database.VStr "h:pw").
Proof.
  assert (Hp : ({[ "email" := Database.VStr "a@b.c";
                   "password" := Database.VStr "pw" ]} : gmap string Database.value)
               !! "password" = Some (Database.VStr "pw")) by (vm_compute; reflexivity).
  assert (He : ({[ "email" := Database.VStr "a@b.c";
                   "password" := Database.VStr "pw" ]} : gmap string Database.value)
               !! "email" = Some (Database.VStr "a@b.c")) by (vm_compute; reflexivity).
  destruct (created_user_can_log_in (fun p => "h:" +:+ p) String.eqb []
              {[ "email" := Database.VStr "a@b.c"; "password" := Database.VStr "pw" ]}
              "pw" "a@b.c" "oid1" 1 2 Hp He eq_refl)
    as (id & doc & H1 & H2 & _).
  exists id, doc. split; [exact H1|exact H2].
Defined.

Lemma create_user_keeps_emails_unique_witness :
  Database.emails_unique
    (snd (Database.create_user (fun p => "h:" +:+ p) []
            {[ "email" := Database.VStr "a@b.c"; "password" := Database.VStr "pw" ]}
            "oid1" 1 2)).
Proof.
  apply (create_user_keeps_emails_unique (fun p => "h:" +:+ p)). constructor.
Defined.

(** ** The signup and login routes *)

Section RouteFacts.
Import Database Routes.
Variable hash : string -> string.
Variable verify : string -> string -> bool.
Variable jwt_encode : gmap string Auth.claim -> string.

(** Neither route gets as far as the database.  The module that main.py
    calls [db] has no attribute [users] or [authenticate_user], so every
    signup is answered with the 500 "An error occurred during signup",
    stores no user and sets no cookie, and every login is answered with
    the 500 "An error occurred during login", for a right password as for
    a wrong one and for a known email as for an unknown one. *)
Theorem signup_and_login_always_fail :
  (forall users https fullname email password oid t t' c u issued_at,
      signup hash jwt_encode users https fullname email password oid
        t t' c u issued_at
      = (JSONResponse 500
           (Literal "An error occurred during signup. Please try again."),
         users))
  /\ (forall users is_production username password issued_at,
        login_for_access_token verify jwt_encode users is_production
          username password issued_at
        = HTTPError 500 "An error occurred during login").
Proof. split; reflexivity. Qed.

End RouteFacts.
